(** * CamControl: the camera rig and the image-analysis fallback

    A shallow embedding of [src/scene/CameraRig.js] (the rig controller and
    its geometry) and of [analyzeImage] from the Gemini service, together
    with the properties the specification states about them.

    Numbers.  A JavaScript number is modelled by [num]: a real number, one
    of the two infinities, or NaN.  Finite arithmetic is exact (no rounding
    and no overflow) and the sign of a zero is not tracked (a zero divisor
    counts as +0); a [Float32Array] stores a number rounded to single
    precision.  Everything that IEEE-754 says about NaN and the infinities
    is kept, so that the guards of the source ([isNaN], the [|| 1] of
    [normalize], the near-plane test) mean what they mean there.  What the
    rounding and the range of the doubles do to the camera position is
    evaluated apart, in [Double], on the binary64 numbers themselves. *)

From Stdlib Require PrimFloat.
From Stdlib Require Import Reals Lra String Ascii.
From stdpp Require Import gmap strings.

Local Open Scope R_scope.

(** Comparisons of reals are decidable; they are used as tests below. *)
#[global] Instance R_eq_dec : EqDecision R := Req_dec_T.
#[global] Instance Rlt_decision (x y : R) : Decision (x < y) := Rlt_dec x y.
#[global] Instance Rle_decision (x y : R) : Decision (x <= y) := Rle_dec x y.

(** ** JavaScript numbers *)

Inductive num : Type :=
  | Fin (r : R)
  | PInf
  | NInf
  | NaN.

Declare Scope js_scope.
Delimit Scope js_scope with js.
Bind Scope js_scope with num.

Definition infinity (positive : bool) : num :=
  if positive then PInf else NInf.

(** An infinity of the given sign multiplied by the finite [r]. *)
Definition inf_times (positive : bool) (r : R) : num :=
  if decide (r = 0) then NaN
  else if decide (0 < r) then infinity positive
  else infinity (negb positive).

Definition nneg (a : num) : num :=
  match a with
  | Fin r => Fin (- r)
  | PInf => NInf
  | NInf => PInf
  | NaN => NaN
  end.

Definition nadd (a b : num) : num :=
  match a, b with
  | NaN, _ | _, NaN => NaN
  | Fin x, Fin y => Fin (x + y)
  | PInf, NInf | NInf, PInf => NaN
  | PInf, _ | _, PInf => PInf
  | NInf, _ | _, NInf => NInf
  end.

Definition nsub (a b : num) : num := nadd a (nneg b).

Definition nmul (a b : num) : num :=
  match a, b with
  | NaN, _ | _, NaN => NaN
  | Fin x, Fin y => Fin (x * y)
  | Fin x, PInf | PInf, Fin x => inf_times true x
  | Fin x, NInf | NInf, Fin x => inf_times false x
  | PInf, PInf | NInf, NInf => PInf
  | PInf, NInf | NInf, PInf => NInf
  end.

Definition ndiv (a b : num) : num :=
  match a, b with
  | NaN, _ | _, NaN => NaN
  | Fin x, Fin y =>
      if decide (y = 0) then
        (if decide (x = 0) then NaN else infinity (bool_decide (0 < x)))
      else Fin (x / y)
  | Fin _, (PInf | NInf) => Fin 0
  | PInf, Fin y => infinity (bool_decide (0 <= y))
  | NInf, Fin y => infinity (bool_decide (y < 0))
  | (PInf | NInf), (PInf | NInf) => NaN
  end.

Infix "+" := nadd : js_scope.
Infix "-" := nsub : js_scope.
Infix "*" := nmul : js_scope.
Infix "/" := ndiv : js_scope.
Notation "- a" := (nneg a) : js_scope.

(** [a < b] and [a > b]: false as soon as one side is NaN. *)
Definition nlt (a b : num) : bool :=
  match a, b with
  | NaN, _ | _, NaN => false
  | Fin x, Fin y => bool_decide (x < y)
  | NInf, (Fin _ | PInf) => true
  | Fin _, PInf => true
  | _, _ => false
  end.

Definition ngt (a b : num) : bool := nlt b a.

Definition isNaN (a : num) : bool :=
  match a with NaN => true | _ => false end.

(** Truthiness of a number: 0 and NaN are falsy. *)
Definition num_truthy (a : num) : bool :=
  match a with
  | Fin r => bool_decide (r <> 0)
  | PInf | NInf => true
  | NaN => false
  end.

(** [a || b] when [a] is a number. *)
Definition num_or (a b : num) : num := if num_truthy a then a else b.

Module Math.

Definition abs (a : num) : num :=
  match a with
  | Fin r => Fin (Rabs r)
  | PInf | NInf => PInf
  | NaN => NaN
  end.

Definition sqrt (a : num) : num :=
  match a with
  | Fin r => if decide (r < 0) then NaN else Fin (R_sqrt.sqrt r)
  | PInf => PInf
  | NInf | NaN => NaN
  end.

Definition sin (a : num) : num :=
  match a with Fin r => Fin (Rtrigo_def.sin r) | _ => NaN end.

Definition cos (a : num) : num :=
  match a with Fin r => Fin (Rtrigo_def.cos r) | _ => NaN end.

(** The tangent as sine over cosine: an infinity where the cosine is 0. *)
Definition tan (a : num) : num := (sin a / cos a)%js.

Definition max (a b : num) : num :=
  match a, b with
  | NaN, _ | _, NaN => NaN
  | Fin x, Fin y => Fin (Rmax x y)
  | PInf, _ | _, PInf => PInf
  | NInf, c | c, NInf => c
  end.

Definition min (a b : num) : num :=
  match a, b with
  | NaN, _ | _, NaN => NaN
  | Fin x, Fin y => Fin (Rmin x y)
  | NInf, _ | _, NInf => NInf
  | PInf, c | c, PInf => c
  end.

Definition PI : num := Fin Rtrigo1.PI.

(** The exponent of the float32 grid around [x >= 0]: the least [e] from
    -149 on with [x < 2^(e + 24)], and 104 at most. *)
Fixpoint float32_exponent (fuel : nat) (e : Z) (x : R) : Z :=
  match fuel with
  | O => e
  | S fuel =>
      if bool_decide (x < powerRZ 2 (e + 24)) then e
      else float32_exponent fuel (e + 1) x
  end.

(** The integer nearest to [x], the even one of two that are as near. *)
Definition round_half_even (x : R) : Z :=
  let n := Zfloor x in
  if bool_decide (x - IZR n < 1 / 2) then n
  else if bool_decide (1 / 2 < x - IZR n) then (n + 1)%Z
  else if Z.even n then n else (n + 1)%Z.

(** [Math.fround], the conversion a [Float32Array] applies to a number
    written to it: the nearest number n * 2^e with |n| <= 2^24 and
    -149 <= e <= 104, ties to the even n, and an infinity once that
    reaches 2^128. *)
Definition fround (a : num) : num :=
  match a with
  | Fin r =>
      let e := float32_exponent 253 (-149) (Rabs r) in
      let v := IZR (round_half_even (r / powerRZ 2 e)) * powerRZ 2 e in
      if bool_decide (powerRZ 2 128 <= Rabs v) then infinity (bool_decide (0 < r))
      else Fin v
  | PInf | NInf | NaN => a
  end.

End Math.

(** ** The three.js operations the rig calls

    three.js is a dependency, not part of this repository; the operations
    below follow its sources ([Vector3], [Quaternion], [MathUtils]). *)

Module THREE.

Record Vector3 : Type := Vec3 { x : num; y : num; z : num }.

Record Quaternion : Type := Quat { _x : num; _y : num; _z : num; _w : num }.

Module MathUtils.
Definition DEG2RAD : num := (Math.PI / Fin 180)%js.
Definition degToRad (degrees : num) : num := (degrees * DEG2RAD)%js.
End MathUtils.

Definition length (v : Vector3) : num :=
  Math.sqrt (x v * x v + y v * y v + z v * z v)%js.

Definition multiplyScalar (v : Vector3) (scalar : num) : Vector3 :=
  Vec3 (x v * scalar)%js (y v * scalar)%js (z v * scalar)%js.

Definition divideScalar (v : Vector3) (scalar : num) : Vector3 :=
  multiplyScalar v (Fin 1 / scalar)%js.

(** [this.divideScalar( this.length() || 1 )] *)
Definition normalize (v : Vector3) : Vector3 :=
  divideScalar v (num_or (length v) (Fin 1)).

Definition crossVectors (a b : Vector3) : Vector3 :=
  let '(ax, ay, az) := (x a, y a, z a) in
  let '(bx, by', bz) := (x b, y b, z b) in
  Vec3 (ay * bz - az * by')%js (az * bx - ax * bz)%js (ax * by' - ay * bx)%js.

Definition setFromAxisAngle (axis : Vector3) (angle : num) : Quaternion :=
  let halfAngle := (angle / Fin 2)%js in
  let s := Math.sin halfAngle in
  Quat (x axis * s)%js (y axis * s)%js (z axis * s)%js (Math.cos halfAngle).

Definition applyQuaternion (v : Vector3) (q : Quaternion) : Vector3 :=
  let '(vx, vy, vz) := (x v, y v, z v) in
  let '(qx, qy, qz, qw) := (_x q, _y q, _z q, _w q) in
  (* t = 2 * cross( q.xyz, v ) *)
  let tx := (Fin 2 * (qy * vz - qz * vy))%js in
  let ty := (Fin 2 * (qz * vx - qx * vz))%js in
  let tz := (Fin 2 * (qx * vy - qy * vx))%js in
  (* v + q.w * t + cross( q.xyz, t ) *)
  Vec3 (vx + qw * tx + qy * tz - qz * ty)%js
       (vy + qw * ty + qz * tx - qx * tz)%js
       (vz + qw * tz + qx * ty - qy * tx)%js.

End THREE.

(** ** The camera position in double precision

    The position lines of [updatePosition] and [Vector3.length] once more,
    on IEEE-754 binary64 numbers: every product, sum and square root is
    rounded to the nearest double and can overflow or underflow. *)

Module Double.

Import PrimFloat.
Local Open Scope float_scope.

(** [Math.PI], and the [DEG2RAD] of three.js. *)
Definition PI : float := 0x1.921fb54442d18p+1.

Definition DEG2RAD : float := PI / 180.

Definition degToRad (degrees : float) : float := degrees * DEG2RAD.

Section Engine.

(** [Math.sin] and [Math.cos] belong to the engine, which approximates
    them. *)
Variables sin cos : float -> float.

Definition cameraPosition (distance orbitH orbitV : float) : float * float * float :=
  let theta := degToRad orbitH in
  let phi := degToRad orbitV in
  let x := distance * cos phi * sin theta in
  let y := distance * sin phi in
  let z := distance * cos phi * cos theta in
  (x, y, z).

End Engine.

Definition length (v : float * float * float) : float :=
  let '(x, y, z) := v in
  sqrt (x * x + y * y + z * z).



End Double.

(** ** JavaScript values and objects *)

Inductive jsval : Type :=
  | VUndefined
  | VNull
  | VBool (b : bool)
  | VNum (n : num)
  | VStr (s : string).

(** Truthiness: [undefined], [null], [false], [0], [NaN] and the empty
    string are falsy. *)
Definition truthy (v : jsval) : bool :=
  match v with
  | VUndefined | VNull => false
  | VBool b => b
  | VNum n => num_truthy n
  | VStr s => bool_decide (s <> EmptyString)
  end.

(** [a || b] *)
Definition js_or (a b : jsval) : jsval := if truthy a then a else b.

(** An object is its own enumerable properties.  A property can hold
    [undefined]; reading a missing property gives [undefined] too. *)
Abbreviation obj := (gmap string jsval).

Definition get (o : obj) (key : string) : jsval := default VUndefined (o !! key).

(** [Object.assign(target, source)]: every property of [source] is written
    onto [target]. *)
Definition Object_assign (target source : obj) : obj := source ∪ target.

(** Objects live in a store and are held by reference. *)
Definition loc := nat.

Abbreviation store := (gmap loc obj).

Definition deref (h : store) (l : loc) : obj := default ∅ (h !! l).

(** A new object: a reference that the store does not use yet. *)
Definition alloc (o : obj) (h : store) : loc * store :=
  let l := fresh (dom h) in (l, <[l := o]> h).

(** ** The camera rig ([src/scene/CameraRig.js]) *)

(** The properties of the three.js scene objects that the rig writes.  The
    orientation that [cameraArm.lookAt(0, 0, 0)] gives the arm is not
    represented. *)
Record Objects : Type := {
  cameraArm_position : THREE.Vector3;
  cameraPivot_rotation_x : num;
  cameraPivot_rotation_y : num;
  orbitPath_scale : jsval;
  viewportFrame_visible : bool;
  viewportFrame_positions : list num;
  viewportPlane_visible : bool;
  viewportPlane_scale : THREE.Vector3;
  viewportPlane_position : THREE.Vector3;
  viewportPlane_rotation_y : num;
  frustumLines_positions : list num;
  group_visible : bool;
}.

(** The fields of a [CameraRig].  [state] and [originalState] are references
    into [heap], the store of the objects the rig has created. *)
Record CameraRig : Type := {
  heap : store;
  state : loc;
  originalState : loc;
  originalShotType : jsval;
  originalAngle : jsval;
  aspectRatio : num;
  imageWidth : num;
  imageHeight : num;
  objects : Objects;
}.

Definition with_objects (this : CameraRig) (o : Objects) : CameraRig :=
  {| heap := heap this; state := state this;
     originalState := originalState this;
     originalShotType := originalShotType this;
     originalAngle := originalAngle this;
     aspectRatio := aspectRatio this; imageWidth := imageWidth this;
     imageHeight := imageHeight this; objects := o |}.

(** The object [this.state] refers to, and the one [this.originalState]
    refers to. *)
Definition this_state (this : CameraRig) : obj := deref (heap this) (state this).

Definition this_originalState (this : CameraRig) : obj :=
  deref (heap this) (originalState this).

(** [constructor]: the state literal, its copy, the image dimensions and the
    scene objects as three.js creates them (zero-filled position buffers,
    everything visible, unit scales). *)
Definition constructor : CameraRig :=
  let '(st, h1) :=
    alloc {[ "distance" := VNum (Fin 3); "orbitH" := VNum (Fin 0);
             "orbitV" := VNum (Fin 0); "pan" := VNum (Fin 0);
             "tilt" := VNum (Fin 0) ]} ∅ in
  let '(orig, h2) := alloc (deref h1 st) h1 in
  {| heap := h2; state := st; originalState := orig;
     originalShotType := VUndefined; originalAngle := VUndefined;
     aspectRatio := (Fin 16 / Fin 9)%js;
     imageWidth := Fin 2; imageHeight := Fin 2;
     objects :=
       {| cameraArm_position := THREE.Vec3 (Fin 0) (Fin 0) (Fin 0);
          cameraPivot_rotation_x := Fin 0;
          cameraPivot_rotation_y := Fin 0;
          orbitPath_scale := VNum (Fin 1);
          viewportFrame_visible := true;
          viewportFrame_positions := replicate 15 (Fin 0);
          viewportPlane_visible := true;
          viewportPlane_scale := THREE.Vec3 (Fin 1) (Fin 1) (Fin 1);
          viewportPlane_position := THREE.Vec3 (Fin 0) (Fin 0) (Fin 0);
          viewportPlane_rotation_y := Fin 0;
          frustumLines_positions := replicate 24 (Fin 0);
          group_visible := true |} |}.

(** Reading and writing a [Float32Array]: a read out of range gives
    [undefined] (NaN once stored in another such array), a write out of
    range is ignored, and what is written is stored in single precision. *)
Definition array_get (a : list num) (i : nat) : num := default NaN (a !! i).

Definition array_set (a : list num) (i : nat) (v : num) : list num :=
  <[i := Math.fround v]> a.

Section Rig.

(** The conversion of a string to a number belongs to the JavaScript
    engine; the rig's arithmetic applies it to whatever a state field
    holds. *)
Variable StringToNumber : string -> num.

Definition ToNumber (v : jsval) : num :=
  match v with
  | VUndefined => NaN
  | VNull => Fin 0
  | VBool b => if b then Fin 1 else Fin 0
  | VNum n => n
  | VStr s => StringToNumber s
  end.

(** The spherical-to-cartesian lines, which [updatePosition],
    [updateViewportFrame] and [updateFrustumLines] each repeat. *)
Definition cameraPosition (this : CameraRig) : THREE.Vector3 :=
  let distance := get (this_state this) "distance" in
  let orbitH := get (this_state this) "orbitH" in
  let orbitV := get (this_state this) "orbitV" in
  let theta := THREE.MathUtils.degToRad (ToNumber orbitH) in
  let phi := THREE.MathUtils.degToRad (ToNumber orbitV) in
  let x := (ToNumber distance * Math.cos phi * Math.sin theta)%js in
  let y := (ToNumber distance * Math.sin phi)%js in
  let z := (ToNumber distance * Math.cos phi * Math.cos theta)%js in
  THREE.Vec3 x y z.

(** The look direction of [updateViewportFrame]: towards the origin, then
    rotated by pan around the camera's up axis and by tilt around its
    right axis. *)
Definition viewForward (this : CameraRig) : THREE.Vector3 :=
  let pan := get (this_state this) "pan" in
  let tilt := get (this_state this) "tilt" in
  let '(camX, camY, camZ) :=
    (THREE.x (cameraPosition this), THREE.y (cameraPosition this),
     THREE.z (cameraPosition this)) in
  let lookDir := THREE.normalize (THREE.Vec3 (- camX) (- camY) (- camZ))%js in
  let panRad := THREE.MathUtils.degToRad (ToNumber pan) in
  let tiltRad := THREE.MathUtils.degToRad (ToNumber tilt) in
  let forward := lookDir in
  let worldUp := THREE.Vec3 (Fin 0) (Fin 1) (Fin 0) in
  let right := THREE.normalize (THREE.crossVectors forward worldUp) in
  let up := THREE.normalize (THREE.crossVectors right forward) in
  let panQuat := THREE.setFromAxisAngle up panRad in
  let tiltQuat := THREE.setFromAxisAngle right tiltRad in
  THREE.applyQuaternion (THREE.applyQuaternion forward panQuat) tiltQuat.

(** [centerX] and [centerY]: the forward ray projected to z = 0. *)
Definition viewCenter (this : CameraRig) : num * num :=
  let '(camX, camY, camZ) :=
    (THREE.x (cameraPosition this), THREE.y (cameraPosition this),
     THREE.z (cameraPosition this)) in
  let forward := viewForward this in
  let centerX := (camX + (THREE.x forward / THREE.z forward) * (- camZ))%js in
  let centerY := (camY + (THREE.y forward / THREE.z forward) * (- camZ))%js in
  (centerX, centerY).

(** [Math.max(-maxOffset, Math.min(maxOffset, isNaN(c) ? 0 : c))] *)
Definition clampCenter (maxOffset c : num) : num :=
  Math.max (- maxOffset)%js (Math.min maxOffset (if isNaN c then Fin 0 else c)).

(** [baseViewHeight] for a given distance to the plane. *)
Definition baseViewHeight (distToPlane : num) : num :=
  let fov := Fin 50 in
  let halfFovRad := THREE.MathUtils.degToRad (fov / Fin 2)%js in
  (Fin 2 * Math.tan halfFovRad * distToPlane)%js.

(** [viewScale]: the scale that fits the image plus its margin, capped. *)
Definition viewScale (this : CameraRig) (distToPlane : num) : num :=
  let marginFactor := Fin (11 / 10) in
  let scaleToMatchImage :=
    ((imageHeight this * marginFactor) / baseViewHeight distToPlane)%js in
  let minScale := Fin (1 / 2) in
  let maxScale := Fin 2 in
  Math.max minScale (Math.min maxScale scaleToMatchImage).

Definition updateViewportFrame (this : CameraRig) : CameraRig :=
  let o := objects this in
  let '(camX, camY, camZ) :=
    (THREE.x (cameraPosition this), THREE.y (cameraPosition this),
     THREE.z (cameraPosition this)) in
  let distToPlane := Math.abs camZ in
  if nlt distToPlane (Fin (1 / 10)) then
    (* Camera too close to or at the image plane *)
    with_objects this
      {| cameraArm_position := cameraArm_position o;
         cameraPivot_rotation_x := cameraPivot_rotation_x o;
         cameraPivot_rotation_y := cameraPivot_rotation_y o;
         orbitPath_scale := orbitPath_scale o;
         viewportFrame_visible := false;
         viewportFrame_positions := viewportFrame_positions o;
         viewportPlane_visible := false;
         viewportPlane_scale := viewportPlane_scale o;
         viewportPlane_position := viewportPlane_position o;
         viewportPlane_rotation_y := viewportPlane_rotation_y o;
         frustumLines_positions := frustumLines_positions o;
         group_visible := group_visible o |}
  else
    let viewHeight := (baseViewHeight distToPlane * viewScale this distToPlane)%js in
    let viewWidth := (viewHeight * aspectRatio this)%js in
    let '(centerX, centerY) := viewCenter this in
    let maxOffset := imageWidth this in
    let clampedCenterX := clampCenter maxOffset centerX in
    let clampedCenterY := clampCenter maxOffset centerY in
    let hw := (viewWidth / Fin 2)%js in
    let hh := (viewHeight / Fin 2)%js in
    let frameZ := if ngt camZ (Fin 0) then Fin (1 / 100) else Fin (- (1 / 100)) in
    let positions := viewportFrame_positions o in
    let positions := array_set positions 0 (clampedCenterX - hw)%js in
    let positions := array_set positions 1 (clampedCenterY - hh)%js in
    let positions := array_set positions 2 frameZ in
    let positions := array_set positions 3 (clampedCenterX + hw)%js in
    let positions := array_set positions 4 (clampedCenterY - hh)%js in
    let positions := array_set positions 5 frameZ in
    let positions := array_set positions 6 (clampedCenterX + hw)%js in
    let positions := array_set positions 7 (clampedCenterY + hh)%js in
    let positions := array_set positions 8 frameZ in
    let positions := array_set positions 9 (clampedCenterX - hw)%js in
    let positions := array_set positions 10 (clampedCenterY + hh)%js in
    let positions := array_set positions 11 frameZ in
    let positions := array_set positions 12 (clampedCenterX - hw)%js in
    let positions := array_set positions 13 (clampedCenterY - hh)%js in
    let positions := array_set positions 14 frameZ in
    with_objects this
      {| cameraArm_position := cameraArm_position o;
         cameraPivot_rotation_x := cameraPivot_rotation_x o;
         cameraPivot_rotation_y := cameraPivot_rotation_y o;
         orbitPath_scale := orbitPath_scale o;
         viewportFrame_visible := true;
         viewportFrame_positions := positions;
         viewportPlane_visible := true;
         viewportPlane_scale := THREE.Vec3 viewWidth viewHeight (Fin 1);
         viewportPlane_position := THREE.Vec3 clampedCenterX clampedCenterY frameZ;
         viewportPlane_rotation_y := if ngt camZ (Fin 0) then Fin 0 else Math.PI;
         frustumLines_positions := frustumLines_positions o;
         group_visible := group_visible o |}.

(** One turn of the loop of [updateFrustumLines]. *)
Definition frustumLine (cam : THREE.Vector3) (framePos : list num)
    (positions : list num) (i : nat) : list num :=
  let idx := (i * 6)%nat in
  let positions := array_set positions idx (THREE.x cam) in
  let positions := array_set positions (idx + 1) (THREE.y cam) in
  let positions := array_set positions (idx + 2) (THREE.z cam) in
  let positions := array_set positions (idx + 3) (array_get framePos (i * 3)) in
  let positions := array_set positions (idx + 4) (array_get framePos (i * 3 + 1)) in
  array_set positions (idx + 5) (array_get framePos (i * 3 + 2)).

Definition updateFrustumLines (this : CameraRig) : CameraRig :=
  let o := objects this in
  let framePos := viewportFrame_positions o in
  let positions :=
    foldl (frustumLine (cameraPosition this) framePos)
          (frustumLines_positions o) (seq 0 4) in
  with_objects this
    {| cameraArm_position := cameraArm_position o;
       cameraPivot_rotation_x := cameraPivot_rotation_x o;
       cameraPivot_rotation_y := cameraPivot_rotation_y o;
       orbitPath_scale := orbitPath_scale o;
       viewportFrame_visible := viewportFrame_visible o;
       viewportFrame_positions := viewportFrame_positions o;
       viewportPlane_visible := viewportPlane_visible o;
       viewportPlane_scale := viewportPlane_scale o;
       viewportPlane_position := viewportPlane_position o;
       viewportPlane_rotation_y := viewportPlane_rotation_y o;
       frustumLines_positions := positions;
       group_visible := group_visible o |}.

Definition updatePosition (this : CameraRig) : CameraRig :=
  let o := objects this in
  let distance := get (this_state this) "distance" in
  let pan := get (this_state this) "pan" in
  let tilt := get (this_state this) "tilt" in
  let this :=
    with_objects this
      {| cameraArm_position := cameraPosition this;
         cameraPivot_rotation_x := THREE.MathUtils.degToRad (ToNumber tilt);
         cameraPivot_rotation_y := THREE.MathUtils.degToRad (ToNumber pan);
         orbitPath_scale := distance;
         viewportFrame_visible := viewportFrame_visible o;
         viewportFrame_positions := viewportFrame_positions o;
         viewportPlane_visible := viewportPlane_visible o;
         viewportPlane_scale := viewportPlane_scale o;
         viewportPlane_position := viewportPlane_position o;
         viewportPlane_rotation_y := viewportPlane_rotation_y o;
         frustumLines_positions := frustumLines_positions o;
         group_visible := group_visible o |} in
  updateFrustumLines (updateViewportFrame this).

Definition setAspectRatio (ratio : num) (this : CameraRig) : CameraRig :=
  updateViewportFrame
    {| heap := heap this; state := state this;
       originalState := originalState this;
       originalShotType := originalShotType this;
       originalAngle := originalAngle this;
       aspectRatio := ratio; imageWidth := imageWidth this;
       imageHeight := imageHeight this; objects := objects this |}.

Definition setImageSize (width height : num) (this : CameraRig) : CameraRig :=
  updateViewportFrame
    {| heap := heap this; state := state this;
       originalState := originalState this;
       originalShotType := originalShotType this;
       originalAngle := originalAngle this;
       aspectRatio := aspectRatio this; imageWidth := width;
       imageHeight := height; objects := objects this |}.

Definition setInitialState (cameraInfo : obj) (this : CameraRig) : CameraRig :=
  (* Set initial state from image analysis *)
  let '(st, h1) :=
    alloc {[ "distance" := js_or (get cameraInfo "distance") (VNum (Fin 3));
             "orbitH" := js_or (get cameraInfo "yaw") (VNum (Fin 0));
             "orbitV" := js_or (get cameraInfo "pitch") (VNum (Fin 0));
             "pan" := VNum (Fin 0);
             "tilt" := VNum (Fin 0) ]} (heap this) in
  (* Store original state *)
  let '(orig, h2) := alloc (deref h1 st) h1 in
  updatePosition
    {| heap := h2; state := st; originalState := orig;
       originalShotType := get cameraInfo "shotType";
       originalAngle := get cameraInfo "angle";
       aspectRatio := aspectRatio this; imageWidth := imageWidth this;
       imageHeight := imageHeight this; objects := objects this |}.

Definition updateState (newState : obj) (this : CameraRig) : CameraRig :=
  updatePosition
    {| heap := <[state this := Object_assign (this_state this) newState]> (heap this);
       state := state this;
       originalState := originalState this;
       originalShotType := originalShotType this;
       originalAngle := originalAngle this;
       aspectRatio := aspectRatio this; imageWidth := imageWidth this;
       imageHeight := imageHeight this; objects := objects this |}.

Definition resetToOriginal (this : CameraRig) : CameraRig :=
  let '(st, h1) := alloc (this_originalState this) (heap this) in
  updatePosition
    {| heap := h1; state := st;
       originalState := originalState this;
       originalShotType := originalShotType this;
       originalAngle := originalAngle this;
       aspectRatio := aspectRatio this; imageWidth := imageWidth this;
       imageHeight := imageHeight this; objects := objects this |}.

(** [getState] and [getOriginalState] return new objects. *)
Definition getState (this : CameraRig) : obj :=
  <["originalAngle" := originalAngle this]>
    (<["originalShotType" := originalShotType this]> (this_state this)).

Definition getOriginalState (this : CameraRig) : obj :=
  <["originalAngle" := originalAngle this]>
    (<["originalShotType" := originalShotType this]> (this_originalState this)).

End Rig.

Definition setVisible (visible : bool) (this : CameraRig) : CameraRig :=
  let o := objects this in
  with_objects this
    {| cameraArm_position := cameraArm_position o;
       cameraPivot_rotation_x := cameraPivot_rotation_x o;
       cameraPivot_rotation_y := cameraPivot_rotation_y o;
       orbitPath_scale := orbitPath_scale o;
       viewportFrame_visible := viewportFrame_visible o;
       viewportFrame_positions := viewportFrame_positions o;
       viewportPlane_visible := viewportPlane_visible o;
       viewportPlane_scale := viewportPlane_scale o;
       viewportPlane_position := viewportPlane_position o;
       viewportPlane_rotation_y := viewportPlane_rotation_y o;
       frustumLines_positions := frustumLines_positions o;
       group_visible := visible |}.

(** The calls a user interface makes on a rig once the image is analysed. *)
Inductive Call : Type :=
  | CallUpdateState (newState : obj)
  | CallResetToOriginal
  | CallSetAspectRatio (ratio : num)
  | CallSetImageSize (width height : num).

Definition call (StringToNumber : string -> num) (this : CameraRig) (c : Call)
    : CameraRig :=
  match c with
  | CallUpdateState newState => updateState StringToNumber newState this
  | CallResetToOriginal => resetToOriginal StringToNumber this
  | CallSetAspectRatio ratio => setAspectRatio StringToNumber ratio this
  | CallSetImageSize width height => setImageSize StringToNumber width height this
  end.

Definition calls (StringToNumber : string -> num) (this : CameraRig)
    (cs : list Call) : CameraRig :=
  foldl (call StringToNumber) this cs.

(** Two rigs with the same controller fields: they differ in scene objects
    at most. *)
Definition same_controller (a b : CameraRig) : Prop :=
  heap a = heap b /\ state a = state b /\ originalState a = originalState b /\
  originalShotType a = originalShotType b /\ originalAngle a = originalAngle b /\
  aspectRatio a = aspectRatio b /\ imageWidth a = imageWidth b /\
  imageHeight a = imageHeight b.

(** The live state and the original state are two objects, and the
    original one exists. *)
Definition separate (this : CameraRig) : Prop :=
  state this <> originalState this /\ is_Some (heap this !! originalState this).

(** ** The image analysis ([analyzeImage] of the Gemini service) *)

(** An [Error] object, as far as the service looks at it: its [message]. *)
Record Error : Type := { message : jsval }.

(** A call returns a value or throws. *)
Inductive outcome (A : Type) : Type :=
  | Return (a : A)
  | Throw (e : Error).

Arguments Return {A} a.
Arguments Throw {A} e.

(** What [JSON.parse] gives back: an object, or some other value. *)
Inductive parsed : Type :=
  | ParsedObject (o : obj)
  | ParsedOther (v : jsval).

(** [haystack.includes(needle)] *)
Fixpoint includes (needle haystack : string) : bool :=
  String.prefix needle haystack ||
  match haystack with
  | EmptyString => false
  | String _ rest => includes needle rest
  end.

(** [e.message?.includes(needle)]: [undefined] (falsy) when there is no
    message, a TypeError when the message is not a string. *)
Definition message_includes (e : Error) (needle : string) : outcome bool :=
  match message e with
  | VUndefined | VNull => Return false
  | VStr m => Return (includes needle m)
  | VBool _ | VNum _ =>
      Throw {| message := VStr "e.message?.includes is not a function" |}
  end.

Definition newline : ascii := ascii_of_nat 10.

(** The length of the match of [/```json\n?|\n?```/] at the start of [s],
    0 when there is none. *)
Definition fence_length (s : string) : nat :=
  if String.prefix (String.append "```json" (String newline EmptyString)) s then 8
  else if String.prefix "```json" s then 7
  else if String.prefix (String newline "```") s then 4
  else if String.prefix "```" s then 3
  else 0.

(** [s.replace(/```json\n?|\n?```/g, '')]; [skip] counts the characters of
    the current match that are still to be dropped. *)
Fixpoint replace_fences (skip : nat) (s : string) : string :=
  match s with
  | EmptyString => EmptyString
  | String c rest =>
      match skip with
      | Datatypes.S k => replace_fences k rest
      | O =>
          match fence_length s with
          | Datatypes.S k => replace_fences k rest
          | O => String c (replace_fences 0 rest)
          end
      end
  end.

(** [getAIClient]: throws when the stored key is missing or empty.  The
    client itself is not represented. *)
Definition getAIClient (apiKey : outcome jsval) : outcome unit :=
  match apiKey with
  | Throw e => Throw e
  | Return key =>
      if negb (truthy key) then
        Throw {| message :=
          VStr "API key not configured. Please enter your Gemini API key." |}
      else Return tt
  end.

(** The record [analyzeImage] returns when the analysis fails. *)
Definition default_analysis : obj :=
  {[ "distance" := VNum (Fin 3);
     "focalLength" := VNum (Fin 50);
     "pitch" := VNum (Fin 0);
     "yaw" := VNum (Fin 0);
     "roll" := VNum (Fin 0);
     "height" := VNum (Fin (16 / 10));
     "shotType" := VStr "medium shot";
     "angle" := VStr "eye level";
     "lens" := VStr "normal";
     "description" := VStr "Unable to analyze camera position" ]}.

Section Gemini.

(** Of the JavaScript engine: [String.prototype.trim], [JSON.parse], and
    the match of [/^data:(.+);base64,(.+)$/] (the two groups, when the
    string matches). *)
Variable trim : string -> string.
Variable JSON_parse : string -> outcome parsed.
Variable match_data_url : string -> option (string * string).

(** The body of the [try]: the call, then the parse of its cleaned text.
    [generateContent] is the external service; it is given the mime type
    and the data and returns [response.text], if any. *)
Definition analyze_attempt
    (generateContent : string -> string -> outcome (option string))
    (mimeType base64Data : string) : outcome parsed :=
  match generateContent mimeType base64Data with
  | Throw e => Throw e
  | Return response_text =>
      let text := default EmptyString response_text in
      let jsonStr := trim (replace_fences 0 text) in
      JSON_parse jsonStr
  end.

Definition analyzeImage (apiKey : outcome jsval)
    (generateContent : string -> string -> outcome (option string))
    (imageBase64 : string) : outcome parsed :=
  match getAIClient apiKey with
  | Throw e => Throw e
  | Return _ =>
      match match_data_url imageBase64 with
      | None => Throw {| message := VStr "Invalid image data format" |}
      | Some (mimeType, base64Data) =>
          match analyze_attempt generateContent mimeType base64Data with
          | Return result => Return result
          | Throw e =>
              (* Check if it's a parsing error vs API error *)
              match message_includes e "API key" with
              | Throw e' => Throw e'
              | Return true => Throw e
              | Return false =>
                  (* Return default values on parse failure *)
                  Return (ParsedObject default_analysis)
              end
          end
      end
  end.

End Gemini.

(** A text without any backtick, and a text that does not begin with one. *)
Definition backtick : ascii := ascii_of_nat 96.

Fixpoint no_backtick (s : string) : bool :=
  match s with
  | EmptyString => true
  | String c rest => negb (Ascii.eqb c backtick) && no_backtick rest
  end.

Definition starts_with_backtick (s : string) : bool :=
  match s with
  | EmptyString => false
  | String c _ => Ascii.eqb c backtick
  end.

(** ** The prompt requests ([generatePositionPrompt], [generateMovementPrompt]) *)

Definition dquote : string := String (ascii_of_nat 34) EmptyString.

Definition nl : string := String newline EmptyString.

(** The template of [generatePositionPrompt], its seven interpolations
    already converted to strings. *)
Definition positionPromptText
    (distance orbitH orbitV pan tilt shotType angle : string) : string :=
  String.concat EmptyString
    [ "You are an expert cinematographer helping to create prompts for AI image/video generation."
     ; nl; nl
     ; "Based on the following camera parameters, write a concise prompt describing the camera position and framing for AI image generation:"
     ; nl; nl
     ; "IMPORTANT: The camera ALWAYS points toward the subject at the center. Pan and tilt values only indicate slight off-center adjustments."
     ; nl; nl; "Camera Parameters:"; nl; "- Distance from subject: "; distance
     ; " meters"; nl; "- Horizontal orbit angle: "; orbitH
     ; "° (0 = directly in front, positive = camera moved to the right of subject, negative = left)"
     ; nl; "- Vertical orbit angle: "; orbitV
     ; "° (0 = eye level, positive = camera above looking down, negative = below looking up)"
     ; nl; "- Camera pan offset: "; pan
     ; "° (slight horizontal look offset from subject center)"; nl
     ; "- Camera tilt offset: "; tilt
     ; "° (slight vertical look offset from subject center)"; nl
     ; "- Original shot type: "; shotType; nl; "- Original angle: "; angle; nl
     ; nl; "Write a natural language prompt (2-3 sentences) that describes:"
     ; nl; "1. The camera position relative to the subject (e.g., "; dquote
     ; "camera positioned to the right of subject"; dquote; ", "; dquote
     ; "low angle shot from below"; dquote; ")"; nl
     ; "2. The camera angle and framing"; nl
     ; "3. Any notable perspective effects"; nl; nl
     ; "The prompt should be suitable for use with AI image generation tools like Midjourney, DALL-E, or Stable Diffusion."
     ; nl; nl; "Respond with ONLY the prompt text, no explanations." ].

(** The template of [generateMovementPrompt], its ten interpolations
    already converted to strings. *)
Definition movementPromptText
    (from_distance from_orbitH from_orbitV from_pan from_tilt
     to_distance to_orbitH to_orbitV to_pan to_tilt : string) : string :=
  String.concat EmptyString
    [ "You are an expert cinematographer helping to create prompts for AI video generation."
     ; nl; nl
     ; "Describe a camera movement from the starting position to the ending position."
     ; nl; nl
     ; "IMPORTANT: The camera ALWAYS remains pointed at the subject throughout the movement. This is an orbit/arc movement around the subject, not a pan."
     ; nl; nl; "STARTING POSITION:"; nl; "- Distance from subject: "
     ; from_distance; " meters"; nl; "- Horizontal position: "; from_orbitH
     ; "° (0 = front, positive = right side, negative = left side)"; nl
     ; "- Vertical position: "; from_orbitV
     ; "° (0 = eye level, positive = above, negative = below)"; nl
     ; "- Look offset (pan): "; from_pan; "°"; nl; "- Look offset (tilt): "
     ; from_tilt; "°"; nl; nl; "ENDING POSITION:"; nl
     ; "- Distance from subject: "; to_distance; " meters"; nl
     ; "- Horizontal position: "; to_orbitH; "°"; nl; "- Vertical position: "
     ; to_orbitV; "°"; nl; "- Look offset (pan): "; to_pan; "°"; nl
     ; "- Look offset (tilt): "; to_tilt; "°"; nl; nl
     ; "Write a natural language prompt (2-4 sentences) that describes:"; nl
     ; "1. The starting camera position"; nl
     ; "2. The movement type (e.g., orbit/arc around subject, dolly in/out, crane up/down)"
     ; nl; "3. The ending camera position"; nl
     ; "4. The visual/cinematic effect this creates"; nl; nl
     ; "The prompt should be suitable for use with AI video generation tools like Runway, Pika, or Sora."
     ; nl; nl; "Respond with ONLY the prompt text, no explanations." ].

(** Calls in sequence: the first that throws ends the sequence. *)
Definition outcome_bind {A B : Type} (f : A -> outcome B) (x : outcome A) : outcome B :=
  match x with
  | Return a => f a
  | Throw e => Throw e
  end.

#[global] Instance outcome_mbind : MBind outcome := @outcome_bind.

Section Prompts.

(** Of the JavaScript engine: [Number.prototype.toFixed] and the conversion
    of a number to a string. *)
Variable toFixed : num -> nat -> string.
Variable NumberToString : num -> string.

(** The string a template literal makes of a value. *)
Definition ToString (v : jsval) : string :=
  match v with
  | VUndefined => "undefined"
  | VNull => "null"
  | VBool b => if b then "true" else "false"
  | VNum n => NumberToString n
  | VStr s => s
  end.

(** [v.toFixed(digits)]: a TypeError unless [v] is a number ([undefined]
    and [null] have no properties; a string or a boolean has no [toFixed]
    to call).  The text of the message is the engine's. *)
Definition call_toFixed (v : jsval) (digits : nat) : outcome string :=
  match v with
  | VNum n => Return (toFixed n digits)
  | VUndefined | VNull =>
      Throw {| message := VStr "Cannot read properties of undefined (reading 'toFixed')" |}
  | VBool _ | VStr _ => Throw {| message := VStr "toFixed is not a function" |}
  end.

(** [generateContent] is the external service: it is given the prompt and
    returns [response.text], if any. *)
Definition generatePositionPrompt (apiKey : outcome jsval)
    (generateContent : string -> outcome (option string))
    (cameraState : obj) : outcome string :=
  _ ← getAIClient apiKey;
  distance ← call_toFixed (get cameraState "distance") 2;
  orbitH ← call_toFixed (get cameraState "orbitH") 1;
  orbitV ← call_toFixed (get cameraState "orbitV") 1;
  pan ← call_toFixed (get cameraState "pan") 1;
  tilt ← call_toFixed (get cameraState "tilt") 1;
  let shotType :=
    ToString (js_or (get cameraState "originalShotType") (VStr "medium shot")) in
  let angle :=
    ToString (js_or (get cameraState "originalAngle") (VStr "eye level")) in
  let prompt := positionPromptText distance orbitH orbitV pan tilt shotType angle in
  response_text ← generateContent prompt;
  Return (default EmptyString response_text).

Definition generateMovementPrompt (apiKey : outcome jsval)
    (generateContent : string -> outcome (option string))
    (fromState toState : obj) : outcome string :=
  _ ← getAIClient apiKey;
  from_distance ← call_toFixed (get fromState "distance") 2;
  from_orbitH ← call_toFixed (get fromState "orbitH") 1;
  from_orbitV ← call_toFixed (get fromState "orbitV") 1;
  from_pan ← call_toFixed (get fromState "pan") 1;
  from_tilt ← call_toFixed (get fromState "tilt") 1;
  to_distance ← call_toFixed (get toState "distance") 2;
  to_orbitH ← call_toFixed (get toState "orbitH") 1;
  to_orbitV ← call_toFixed (get toState "orbitV") 1;
  to_pan ← call_toFixed (get toState "pan") 1;
  to_tilt ← call_toFixed (get toState "tilt") 1;
  let prompt :=
    movementPromptText from_distance from_orbitH from_orbitV from_pan from_tilt
                       to_distance to_orbitH to_orbitV to_pan to_tilt in
  response_text ← generateContent prompt;
  Return (default EmptyString response_text).

End Prompts.

(** The five properties of a camera state, and whether they all hold
    numbers. *)
Definition state_keys : list string :=
  [ "distance"; "orbitH"; "orbitV"; "pan"; "tilt" ]%string.

Definition is_number (v : jsval) : bool :=
  match v with VNum _ => true | _ => false end.

Definition numeric_state (o : obj) : bool :=
  forallb (fun key => is_number (get o key)) state_keys.

(** A partial update whose values for those properties, where it has
    some, are numbers: what the sliders send. *)
Definition numeric_partial (newState : obj) : bool :=
  forallb (fun key => match newState !! key with
                      | Some v => is_number v
                      | None => true
                      end) state_keys.

Definition numeric_call (c : Call) : bool :=
  match c with
  | CallUpdateState newState => numeric_partial newState
  | _ => true
  end.

(** An analysis payload whose [distance], [yaw] and [pitch] are each a
    number or a falsy value (a missing property among them). *)
Definition numeric_payload (cameraInfo : obj) : bool :=
  forallb (fun key => is_number (get cameraInfo key) || negb (truthy (get cameraInfo key)))
          [ "distance"; "yaw"; "pitch" ]%string.

(** What a prompt request gives back for the answer of the service. *)
Definition response_text_or_empty (answer : outcome (option string)) : outcome string :=
  match answer with
  | Return text => Return (default EmptyString text)
  | Throw e => Throw e
  end.

(** ** The key store ([src/services/storage.js]) *)

(** [a === b] *)
Definition strict_equal (a b : jsval) : bool :=
  match a, b with
  | VUndefined, VUndefined | VNull, VNull => true
  | VBool x, VBool y => bool_decide (x = y)
  | VNum (Fin x), VNum (Fin y) => bool_decide (x = y)
  | VNum PInf, VNum PInf | VNum NInf, VNum NInf => true
  | VStr x, VStr y => bool_decide (x = y)
  | _, _ => false
  end.

(** IndexedDB as the service meets it: the error with which opening the
    database fails, if it does; the error with which a request on the
    settings store fails, if it does; and the records of that store, by
    their [key]. *)
Record IndexedDB : Type := {
  open_error : option Error;
  request_error : option Error;
  settings : gmap string obj;
}.

Definition with_settings (idb : IndexedDB) (records : gmap string obj) : IndexedDB :=
  {| open_error := open_error idb; request_error := request_error idb;
     settings := records |}.

Definition openDB (idb : IndexedDB) : outcome unit :=
  match open_error idb with
  | Some e => Throw e
  | None => Return tt
  end.

(** The end of a request: [onerror] rejects, [onsuccess] resolves. *)
Definition request {A : Type} (idb : IndexedDB) (result : A) : outcome A :=
  match request_error idb with
  | Some e => Throw e
  | None => Return result
  end.

Definition saveApiKey (apiKey : jsval) (idb : IndexedDB) : outcome IndexedDB :=
  _ ← openDB idb;
  request idb
    (with_settings idb
       (<["gemini_api_key" :=
            {[ "key" := VStr "gemini_api_key"; "value" := apiKey ]}]> (settings idb))).

(** [envKey] is [import.meta.env.VITE_GEMINI_API_KEY].  A failure to open
    the database is caught and gives [null]; a failed request rejects. *)
Definition getApiKey (envKey : jsval) (idb : IndexedDB) : outcome jsval :=
  (* Try env first (dev mode) *)
  if truthy envKey && negb (strict_equal envKey (VStr "your_api_key_here")) then
    Return envKey
  else
    (* Try IndexedDB *)
    match openDB idb with
    | Throw e => Return VNull
    | Return _ =>
        result ← request idb (settings idb !! "gemini_api_key");
        let value :=
          match result with
          | Some record => get record "value"
          | None => VUndefined
          end in
        Return (js_or value VNull)
    end.

Definition clearApiKey (idb : IndexedDB) : outcome IndexedDB :=
  _ ← openDB idb;
  request idb (with_settings idb (delete "gemini_api_key" (settings idb))).

(** ** The image plane ([ImagePlane]) and the loading of an image *)

(** The fields of an [ImagePlane] that the rig depends on: the aspect ratio
    and, once an image is loaded, the width and height of the plane's
    geometry.  The group exists exactly when the mesh does. *)
Record ImagePlane : Type := {
  plane_aspectRatio : num;
  plane_mesh : option (num * num);
}.

Definition ImagePlane_constructor : ImagePlane :=
  {| plane_aspectRatio := Fin 1; plane_mesh := None |}.

(** What [loadImage] does once the texture is there; [image_width] and
    [image_height] are the dimensions of the image. *)
Definition loadImage (image_width image_height : num) (this : ImagePlane)
    : ImagePlane :=
  let aspectRatio := (image_width / image_height)%js in
  let height := Fin 2 in
  let width := (height * aspectRatio)%js in
  {| plane_aspectRatio := aspectRatio; plane_mesh := Some (width, height) |}.

Definition ImagePlane_getSize (this : ImagePlane) : num * num :=
  match plane_mesh this with
  | Some (width, height) => (width, height)
  | None => (Fin 2, Fin 2)
  end.

Definition ImagePlane_dispose (this : ImagePlane) : ImagePlane :=
  match plane_mesh this with
  | Some _ => {| plane_aspectRatio := plane_aspectRatio this; plane_mesh := None |}
  | None => this
  end.

(** The handler of [handleImageFile] once the file is read, up to the
    analysis: the image goes to the plane, its aspect ratio and the size of
    the plane to the rig. *)
Definition handleImageFile_loaded (StringToNumber : string -> num)
    (image_width image_height : num) (app : ImagePlane * CameraRig)
    : ImagePlane * CameraRig :=
  let imagePlane := loadImage image_width image_height app.1 in
  let aspectRatio := plane_aspectRatio imagePlane in
  let cameraRig := setAspectRatio StringToNumber aspectRatio app.2 in
  let size := ImagePlane_getSize imagePlane in
  (imagePlane, setImageSize StringToNumber size.1 size.2 cameraRig).

(** ** The scene manager ([SceneManager]: [add], [remove], [get]) *)

(** A three.js object, by identity.  The objects handed to the manager are
    children of the scene or of nothing. *)
Definition Object3D := nat.

(** [scene.remove(object)]: the object leaves the list of children at its
    first index, if it has one. *)
Fixpoint scene_remove (object : Object3D) (children : list Object3D)
    : list Object3D :=
  match children with
  | [] => []
  | child :: rest =>
      if decide (child = object) then rest else child :: scene_remove object rest
  end.

(** [scene.add(object)]: the object is taken from its parent, here the
    scene if it is a child of it, and pushed at the end. *)
Definition scene_add (object : Object3D) (children : list Object3D)
    : list Object3D :=
  scene_remove object children ++ [object].

(** The manager: its map of named objects and the children of its scene. *)
Record SceneManager : Type := {
  manager_objects : gmap string Object3D;
  scene_children : list Object3D;
}.

Definition SceneManager_get (key : string) (this : SceneManager) : option Object3D :=
  manager_objects this !! key.

(** The disposal of geometry and material has no effect on the map or on
    the scene. *)
Definition SceneManager_remove (key : string) (this : SceneManager) : SceneManager :=
  match manager_objects this !! key with
  | Some object =>
      {| manager_objects := delete key (manager_objects this);
         scene_children := scene_remove object (scene_children this) |}
  | None => this
  end.

Definition SceneManager_add (key : string) (object : Object3D) (this : SceneManager)
    : SceneManager :=
  let this :=
    if bool_decide (is_Some (manager_objects this !! key))
    then SceneManager_remove key this else this in
  {| manager_objects := <[key := object]> (manager_objects this);
     scene_children := scene_add object (scene_children this) |}.

(** Every object of the map is a child of the scene, under one name only,
    and no child is listed twice. *)
Definition registered (this : SceneManager) : Prop :=
  NoDup (scene_children this) /\
  (forall key object, manager_objects this !! key = Some object ->
     object ∈ scene_children this) /\
  (forall key key' object,
     manager_objects this !! key = Some object ->
     manager_objects this !! key' = Some object -> key = key').

(** ** The analysis step of the application ([analyzeImageWithAI] of [main.js]) *)

(** What the step reads and writes of the application: the rig, the flag
    [isAnalyzed], and whether the button [generate-btn] is disabled.  The
    elements of the page exist; of what is written to them only the button
    is kept. *)
Record App : Type := {
  app_cameraRig : CameraRig;
  app_isAnalyzed : bool;
  generate_btn_disabled : bool;
}.

(** [info.name] on what [JSON.parse] gave: a TypeError on [null], and
    [undefined] on another value that is not an object.  The text of the
    message is the engine's. *)
Definition property (info : parsed) (name : string) : outcome jsval :=
  match info with
  | ParsedObject o => Return (get o name)
  | ParsedOther (VUndefined | VNull) =>
      Throw {| message := VStr "Cannot read properties of null" |}
  | ParsedOther _ => Return VUndefined
  end.

(** The properties [setInitialState] reads of it. *)
Definition properties (info : parsed) : obj :=
  match info with
  | ParsedObject o => o
  | ParsedOther _ => ∅
  end.

Section Analysis.

Variable StringToNumber : string -> num.
Variable toFixed : num -> nat -> string.
Variable NumberToString : num -> string.
Variable trim : string -> string.
Variable JSON_parse : string -> outcome parsed.
Variable match_data_url : string -> option (string * string).

(** [v?.toFixed(digits)] *)
Definition optional_toFixed (v : jsval) (digits : nat) : outcome jsval :=
  match v with
  | VUndefined | VNull => Return VUndefined
  | _ => text ← call_toFixed toFixed v digits; Return (VStr text)
  end.

(** [displayCameraInfo]: the six texts the template puts in the page, in
    its order. *)
Definition displayCameraInfo (info : parsed) : outcome (list string) :=
  shotType ← property info "shotType";
  angle ← property info "angle";
  distance ← property info "distance";
  distance_text ← optional_toFixed distance 1;
  focalLength ← property info "focalLength";
  lens ← property info "lens";
  height ← property info "height";
  height_text ← optional_toFixed height 1;
  Return (map (fun v => ToString NumberToString (js_or v (VStr "N/A")))
            [ shotType; angle; distance_text; focalLength; lens; height_text ]).

(** [updateControlsFromState]: the three texts it formats. *)
Definition updateControlsFromState (this : App) : outcome (list string) :=
  let state := getState (app_cameraRig this) in
  distance ← call_toFixed toFixed (get state "distance") 1;
  orbitH ← call_toFixed toFixed (get state "orbitH") 0;
  orbitV ← call_toFixed toFixed (get state "orbitV") 0;
  Return [ distance; orbitH; orbitV ].

(** The [try] block up to the enabling of the button; the [catch] shows a
    message and undoes nothing. *)
Definition analyzeImageWithAI (apiKey : outcome jsval)
    (generateContent : string -> string -> outcome (option string))
    (imageData : string) (this : App) : App :=
  match analyzeImage trim JSON_parse match_data_url apiKey generateContent imageData with
  | Throw _ => this
  | Return cameraInfo =>
      (* Update camera info display *)
      match displayCameraInfo cameraInfo with
      | Throw _ => this
      | Return _ =>
          (* Initialize camera rig with analyzed data *)
          let rig :=
            setVisible true
              (setInitialState StringToNumber (properties cameraInfo)
                 (app_cameraRig this)) in
          (* Update UI state *)
          let this :=
            {| app_cameraRig := rig; app_isAnalyzed := true;
               generate_btn_disabled := generate_btn_disabled this |} in
          match updateControlsFromState this with
          | Throw _ => this
          | Return _ =>
              (* Show controls section *)
              {| app_cameraRig := rig; app_isAnalyzed := true;
                 generate_btn_disabled := false |}
          end
      end
  end.

End Analysis.

(** A value on which [toFixed] cannot be called: a string or a boolean. *)
Definition no_toFixed (v : jsval) : bool :=
  match v with
  | VBool _ | VStr _ => true
  | VUndefined | VNull | VNum _ => false
  end.

(** A rig to evaluate the frame on: a landscape image, 4 wide and 2 high,
    the camera 2 in front of its centre and tilted by 60 degrees. *)
Definition tilted_rig (StringToNumber : string -> num) : CameraRig :=
  updateState StringToNumber
    {[ "distance" := VNum (Fin 2); "tilt" := VNum (Fin 60) ]}
    (setImageSize StringToNumber (Fin 4) (Fin 2) constructor).

(** ** The store *)

Lemma alloc_fresh (o : obj) (h : store) : h !! (alloc o h).1 = None.
Proof. apply not_elem_of_dom, is_fresh. Qed.

Lemma deref_alloc (o : obj) (h : store) : deref (alloc o h).2 (alloc o h).1 = o.
Proof. unfold deref, alloc; simpl. by rewrite lookup_insert_eq. Qed.

Lemma deref_alloc_old (o : obj) (h : store) (l : loc) :
  is_Some (h !! l) -> deref (alloc o h).2 l = deref h l.
Proof.
  intros [o' Hl]. pose proof (alloc_fresh o h) as Hf.
  unfold deref, alloc in *; simpl in *.
  rewrite lookup_insert_ne; [done|]. congruence.
Qed.

Lemma deref_insert_ne (o : obj) (h : store) (l l' : loc) :
  l <> l' -> deref (<[l := o]> h) l' = deref h l'.
Proof. intros Hne. unfold deref. by rewrite lookup_insert_ne. Qed.

Lemma deref_insert_eq (o : obj) (h : store) (l : loc) :
  deref (<[l := o]> h) l = o.
Proof. unfold deref. by rewrite lookup_insert_eq. Qed.

(** ** What the recomputation leaves alone

    [updateViewportFrame], [updateFrustumLines] and [updatePosition] write
    scene objects only. *)

Lemma same_controller_refl (a : CameraRig) : same_controller a a.
Proof. by repeat split. Qed.

Lemma same_controller_trans (a b c : CameraRig) :
  same_controller a b -> same_controller b c -> same_controller a c.
Proof.
  unfold same_controller. intros (?&?&?&?&?&?&?&?) (?&?&?&?&?&?&?&?).
  repeat split; congruence.
Qed.

Lemma updateViewportFrame_controller toNum (this : CameraRig) :
  same_controller (updateViewportFrame toNum this) this.
Proof.
  unfold updateViewportFrame.
  destruct (nlt _ _); [by repeat split|].
  destruct (viewCenter toNum this). by repeat split.
Qed.

Lemma updateFrustumLines_controller toNum (this : CameraRig) :
  same_controller (updateFrustumLines toNum this) this.
Proof. by repeat split. Qed.

Lemma updatePosition_controller toNum (this : CameraRig) :
  same_controller (updatePosition toNum this) this.
Proof.
  unfold updatePosition.
  eapply same_controller_trans; [apply updateFrustumLines_controller|].
  eapply same_controller_trans; [apply updateViewportFrame_controller|].
  by repeat split.
Qed.

Lemma same_controller_state (a b : CameraRig) :
  same_controller a b -> this_state a = this_state b.
Proof. intros (Hh&Hs&_). unfold this_state. by rewrite Hh, Hs. Qed.

Lemma same_controller_originalState (a b : CameraRig) :
  same_controller a b -> this_originalState a = this_originalState b.
Proof. intros (Hh&_&Ho&_). unfold this_originalState. by rewrite Hh, Ho. Qed.

Lemma same_controller_getOriginalState (a b : CameraRig) :
  same_controller a b -> getOriginalState a = getOriginalState b.
Proof.
  intros H. unfold getOriginalState.
  rewrite (same_controller_originalState _ _ H).
  destruct H as (_&_&_&->&->&_). done.
Qed.

Lemma same_controller_getState (a b : CameraRig) :
  same_controller a b -> getState a = getState b.
Proof.
  intros H. unfold getState.
  rewrite (same_controller_state _ _ H).
  destruct H as (_&_&_&->&->&_). done.
Qed.

(** ** The controller: initial state, updates, reset *)

(** Replaces the fields of a recomputed rig by those of the rig before the
    recomputation. *)
Ltac controller_fields :=
  unfold this_state, this_originalState, separate;
  match goal with
  | |- context [updatePosition ?toNum ?r] =>
      let Hh := fresh "Hh" in
      let Hs := fresh "Hs" in
      let Ho := fresh "Ho" in
      let Ht := fresh "Ht" in
      let Ha := fresh "Ha" in
      destruct (updatePosition_controller toNum r) as (Hh & Hs & Ho & Ht & Ha & _);
      rewrite ?Hh, ?Hs, ?Ho, ?Ht, ?Ha; clear Hh Hs Ho Ht Ha; simpl
  | |- context [updateViewportFrame ?toNum ?r] =>
      let Hh := fresh "Hh" in
      let Hs := fresh "Hs" in
      let Ho := fresh "Ho" in
      let Ht := fresh "Ht" in
      let Ha := fresh "Ha" in
      destruct (updateViewportFrame_controller toNum r) as (Hh & Hs & Ho & Ht & Ha & _);
      rewrite ?Hh, ?Hs, ?Ho, ?Ht, ?Ha; clear Hh Hs Ho Ht Ha; simpl
  end.

Section Controller.

Variable toNum : string -> num.

(** After [setInitialState] the rig holds two new objects with the same
    five properties. *)
Lemma setInitialState_objects (cameraInfo : obj) (this : CameraRig) :
  let this' := setInitialState toNum cameraInfo this in
  let o : obj :=
    {[ "distance" := js_or (get cameraInfo "distance") (VNum (Fin 3));
       "orbitH" := js_or (get cameraInfo "yaw") (VNum (Fin 0));
       "orbitV" := js_or (get cameraInfo "pitch") (VNum (Fin 0));
       "pan" := VNum (Fin 0);
       "tilt" := VNum (Fin 0) ]} in
  state this' <> originalState this' /\
  heap this' !! state this' = Some o /\
  heap this' !! originalState this' = Some o /\
  originalShotType this' = get cameraInfo "shotType" /\
  originalAngle this' = get cameraInfo "angle".
Proof.
  intros this' o. subst this'.
  unfold setInitialState, alloc. cbv zeta. cbn [fst snd]. fold o.
  set (l1 := fresh (dom (heap this))).
  set (h1 := <[l1 := o]> (heap this)).
  assert (fresh (dom h1) <> l1) as Hne.
  { intros Heq. apply (is_fresh (dom h1)). rewrite Heq.
    unfold h1. rewrite dom_insert_L. set_solver. }
  controller_fields.
  repeat split; [congruence| |..].
  - rewrite lookup_insert_ne by done. unfold h1. by rewrite lookup_insert_eq.
  - rewrite lookup_insert_eq. unfold deref, h1. by rewrite lookup_insert_eq.
Qed.

Lemma setInitialState_this_state (cameraInfo : obj) (this : CameraRig) :
  this_state (setInitialState toNum cameraInfo this) =
    {[ "distance" := js_or (get cameraInfo "distance") (VNum (Fin 3));
       "orbitH" := js_or (get cameraInfo "yaw") (VNum (Fin 0));
       "orbitV" := js_or (get cameraInfo "pitch") (VNum (Fin 0));
       "pan" := VNum (Fin 0);
       "tilt" := VNum (Fin 0) ]}.
Proof.
  destruct (setInitialState_objects cameraInfo this) as (_ & Hst & _).
  unfold this_state, deref. by rewrite Hst.
Qed.

Lemma setInitialState_separate (cameraInfo : obj) (this : CameraRig) :
  separate (setInitialState toNum cameraInfo this).
Proof.
  destruct (setInitialState_objects cameraInfo this) as (Hne & _ & Ho & _).
  split; [done|]. by rewrite Ho.
Qed.

Lemma setInitialState_this_originalState (cameraInfo : obj) (this : CameraRig) :
  this_originalState (setInitialState toNum cameraInfo this) =
  this_state (setInitialState toNum cameraInfo this).
Proof.
  destruct (setInitialState_objects cameraInfo this) as (_ & Hst & Ho & _).
  unfold this_originalState, this_state, deref. by rewrite Hst, Ho.
Qed.

Lemma updateState_this_state (newState : obj) (this : CameraRig) :
  this_state (updateState toNum newState this) = newState ∪ this_state this.
Proof.
  unfold updateState. controller_fields. apply deref_insert_eq.
Qed.

Lemma updateState_this_originalState (newState : obj) (this : CameraRig) :
  state this <> originalState this ->
  this_originalState (updateState toNum newState this) = this_originalState this.
Proof.
  intros Hne. unfold updateState. controller_fields.
  by apply deref_insert_ne.
Qed.

Lemma updateState_separate (newState : obj) (this : CameraRig) :
  separate this -> separate (updateState toNum newState this).
Proof.
  intros [Hne Hsome]. unfold updateState. controller_fields.
  split; [done|]. by rewrite lookup_insert_ne.
Qed.

Lemma resetToOriginal_this_state (this : CameraRig) :
  this_state (resetToOriginal toNum this) = this_originalState this.
Proof.
  unfold resetToOriginal, alloc. cbv zeta. controller_fields.
  apply deref_insert_eq.
Qed.

Lemma resetToOriginal_this_originalState (this : CameraRig) :
  is_Some (heap this !! originalState this) ->
  this_originalState (resetToOriginal toNum this) = this_originalState this.
Proof.
  intros Hsome. unfold resetToOriginal, alloc. cbv zeta. controller_fields.
  apply (deref_alloc_old _ _ _ Hsome).
Qed.

Lemma resetToOriginal_separate (this : CameraRig) :
  separate this -> separate (resetToOriginal toNum this).
Proof.
  intros [Hne [o Hsome]].
  pose proof (alloc_fresh (deref (heap this) (originalState this)) (heap this)) as Hf.
  unfold resetToOriginal, alloc in *. cbv zeta. simpl in Hf. controller_fields.
  assert (fresh (dom (heap this)) <> originalState this) as Hnew by congruence.
  split; [done|]. rewrite lookup_insert_ne; eauto.
Qed.

(** The tags are written by [setInitialState] only. *)
Lemma call_tags (this : CameraRig) (c : Call) :
  originalShotType (call toNum this c) = originalShotType this /\
  originalAngle (call toNum this c) = originalAngle this.
Proof.
  destruct c; simpl;
    unfold updateState, resetToOriginal, setAspectRatio, setImageSize, alloc;
    cbv zeta; controller_fields; done.
Qed.

(** One call keeps the two objects apart and the original one as it is. *)
Lemma call_separate (this : CameraRig) (c : Call) :
  separate this ->
  separate (call toNum this c) /\
  this_originalState (call toNum this c) = this_originalState this.
Proof.
  intros Hsep. destruct c; simpl.
  - split; [by apply updateState_separate|].
    apply updateState_this_originalState, Hsep.
  - split; [by apply resetToOriginal_separate|].
    apply resetToOriginal_this_originalState, Hsep.
  - unfold setAspectRatio. split; controller_fields; [apply Hsep|done].
  - unfold setImageSize. split; controller_fields; [apply Hsep|done].
Qed.

Lemma calls_separate (cs : list Call) (this : CameraRig) :
  separate this ->
  separate (calls toNum this cs) /\
  this_originalState (calls toNum this cs) = this_originalState this /\
  originalShotType (calls toNum this cs) = originalShotType this /\
  originalAngle (calls toNum this cs) = originalAngle this.
Proof.
  revert this. induction cs as [|c cs IH]; intros this Hsep; [done|].
  simpl. destruct (call_separate this c Hsep) as [Hsep' Ho].
  destruct (call_tags this c) as [Ht Ha].
  destruct (IH _ Hsep') as (? & ? & ? & ?).
  split; [done|]. split; [congruence|]. split; congruence.
Qed.

End Controller.

(** ** Truthiness of the values used below *)

Lemma truthy_nonzero (r : R) : r <> 0 -> truthy (VNum (Fin r)) = true.
Proof. intros Hr. simpl. by apply bool_decide_eq_true_2. Qed.

Lemma truthy_zero : truthy (VNum (Fin 0)) = false.
Proof. simpl. apply bool_decide_eq_false_2. intros H. by apply H. Qed.

Lemma js_or_truthy (a b : jsval) : truthy a = true -> js_or a b = a.
Proof. unfold js_or. by intros ->. Qed.

Lemma js_or_falsy (a b : jsval) : truthy a = false -> js_or a b = b.
Proof. unfold js_or. by intros ->. Qed.

Lemma get_lookup (o : obj) (key : string) (v : jsval) :
  o !! key = Some v -> get o key = v.
Proof. unfold get. by intros ->. Qed.

Lemma foldl_updateState (toNum : string -> num) (updates : list obj) (this : CameraRig) :
  foldl (fun rig newState => updateState toNum newState rig) this updates =
  calls toNum this (CallUpdateState <$> updates).
Proof.
  revert this. induction updates as [|u us IH]; intros this; [done|].
  simpl. apply IH.
Qed.

(** ** The specification of the controller *)

(** C3.  After [setInitialState], whatever updates follow, [resetToOriginal]
    leaves a live state equal, property by property, to the original state
    captured by [setInitialState], which is the state [setInitialState]
    had built. *)
Theorem resetToOriginal_restores (toNum : string -> num) (cameraInfo : obj)
    (this : CameraRig) (updates : list obj) :
  let initial := setInitialState toNum cameraInfo this in
  let moved := foldl (fun rig newState => updateState toNum newState rig) initial updates in
  this_state (resetToOriginal toNum moved) = this_originalState initial /\
  this_state (resetToOriginal toNum moved) = this_state initial.
Proof.
  intros initial moved.
  assert (this_state (resetToOriginal toNum moved) = this_originalState initial) as H.
  { rewrite resetToOriginal_this_state. subst moved.
    rewrite foldl_updateState.
    apply (calls_separate toNum), setInitialState_separate. }
  split; [done|]. rewrite H. apply setInitialState_this_originalState.
Qed.

(** C6.  [updateState] writes the properties of the partial object and only
    those: a key of the partial reads back with the partial's value, any
    other key reads as before.  So [updateState({distance: d})] is followed
    by [getState().distance] being [d], and [updateState({pan: 10})] leaves
    [orbitH], [orbitV], [distance] and [tilt] as they were. *)
Theorem updateState_merges (toNum : string -> num) (this : CameraRig)
    (newState : obj) (key : string) (d : jsval) :
  this_state (updateState toNum newState this) !! key =
    match newState !! key with
    | Some v => Some v
    | None => this_state this !! key
    end /\
  get (getState (updateState toNum {[ "distance" := d ]} this)) "distance" = d /\
  let panned := updateState toNum {[ "pan" := VNum (Fin 10) ]} this in
  get (getState panned) "pan" = VNum (Fin 10) /\
  get (getState panned) "orbitH" = get (getState this) "orbitH" /\
  get (getState panned) "orbitV" = get (getState this) "orbitV" /\
  get (getState panned) "distance" = get (getState this) "distance" /\
  get (getState panned) "tilt" = get (getState this) "tilt".
Proof.
  split; [|split].
  - rewrite updateState_this_state. rewrite lookup_union.
    destruct (newState !! key), (this_state this !! key); done.
  - unfold getState, get. rewrite !lookup_insert_ne by done.
    rewrite updateState_this_state, lookup_union.
    rewrite lookup_singleton_eq. by destruct (this_state this !! "distance").
  - intros panned. subst panned. unfold getState, get.
    rewrite !lookup_insert_ne by done.
    rewrite updateState_this_state, !lookup_union.
    rewrite lookup_singleton_eq, !lookup_singleton_ne by done.
    repeat split;
      match goal with
      | |- context [this_state this !! ?k] => by destruct (this_state this !! k)
      end.
Qed.

(** C7, as the code has it.  [setInitialState] builds a state of exactly
    five properties: [distance] is the payload's [distance] when that value
    is truthy and 3 otherwise (so also when it is 0, NaN, null, false or
    the empty string), [orbitH] and [orbitV] are the payload's [yaw] and
    [pitch] when truthy and 0 otherwise, [pan] and [tilt] are 0; the
    original state is a copy of it.  For the payload
    [{distance: 3, yaw: 0, pitch: 0}] the five state properties returned by
    [getState] are 3, 0, 0, 0, 0. *)
Theorem setInitialState_state (toNum : string -> num) (cameraInfo : obj)
    (this : CameraRig) :
  let or_default (v fallback : jsval) := if truthy v then v else fallback in
  this_state (setInitialState toNum cameraInfo this) =
    {[ "distance" := or_default (get cameraInfo "distance") (VNum (Fin 3));
       "orbitH" := or_default (get cameraInfo "yaw") (VNum (Fin 0));
       "orbitV" := or_default (get cameraInfo "pitch") (VNum (Fin 0));
       "pan" := VNum (Fin 0);
       "tilt" := VNum (Fin 0) ]} /\
  this_originalState (setInitialState toNum cameraInfo this) =
    this_state (setInitialState toNum cameraInfo this) /\
  let scenario : obj :=
    {[ "distance" := VNum (Fin 3); "yaw" := VNum (Fin 0); "pitch" := VNum (Fin 0) ]} in
  let got := getState (setInitialState toNum scenario this) in
  get got "distance" = VNum (Fin 3) /\ get got "orbitH" = VNum (Fin 0) /\
  get got "orbitV" = VNum (Fin 0) /\ get got "pan" = VNum (Fin 0) /\
  get got "tilt" = VNum (Fin 0).
Proof.
  intros or_default. split; [apply setInitialState_this_state|].
  split; [apply setInitialState_this_originalState|].
  intros scenario got. subst got. unfold getState, get.
  rewrite !lookup_insert_ne by done.
  rewrite setInitialState_this_state.
  assert (get scenario "distance" = VNum (Fin 3)) as -> by done.
  assert (get scenario "yaw" = VNum (Fin 0)) as -> by done.
  assert (get scenario "pitch" = VNum (Fin 0)) as -> by done.
  rewrite (js_or_truthy (VNum (Fin 3))) by (apply truthy_nonzero; lra).
  rewrite (js_or_falsy (VNum (Fin 0))) by apply truthy_zero.
  done.
Qed.

(** C7 as stated fails: a payload whose [distance] is present and is 0
    does not give a state whose [distance] is the payload's. *)
Lemma setInitialState_distance_not_payload :
  ({[ "distance" := VNum (Fin 0) ]} : obj) !! "distance" = Some (VNum (Fin 0)) /\
  get (this_state (setInitialState (fun _ => NaN)
         {[ "distance" := VNum (Fin 0) ]} constructor)) "distance" = VNum (Fin 3) /\
  get (this_state (setInitialState (fun _ => NaN)
         {[ "distance" := VNum (Fin 0) ]} constructor)) "distance"
    <> get {[ "distance" := VNum (Fin 0) ]} "distance".
Proof.
  set (cameraInfo := ({[ "distance" := VNum (Fin 0) ]} : obj)).
  set (this' := setInitialState _ _ _).
  assert (get (this_state this') "distance" = VNum (Fin 3)) as Hd.
  { subst this'. rewrite setInitialState_this_state. unfold get at 1.
    rewrite lookup_insert_eq. simpl.
    apply js_or_falsy, truthy_zero. }
  split; [done|]. split; [done|]. rewrite Hd.
  assert (get cameraInfo "distance" = VNum (Fin 0)) as -> by done.
  intros Heq. injection Heq as Heq. lra.
Qed.

(** C9.  From [setInitialState] on, no sequence of [updateState],
    [resetToOriginal], [setAspectRatio] and [setImageSize] changes the
    original state or its two tags; a later [setInitialState] replaces
    them by what its payload gives. *)
Theorem originalState_kept (toNum : string -> num) (cameraInfo later : obj)
    (this : CameraRig) (cs : list Call) :
  let initial := setInitialState toNum cameraInfo this in
  let used := calls toNum initial cs in
  this_originalState used = this_originalState initial /\
  originalShotType used = get cameraInfo "shotType" /\
  originalAngle used = get cameraInfo "angle" /\
  getOriginalState used = getOriginalState initial /\
  this_originalState (setInitialState toNum later used) =
    this_state (setInitialState toNum later used) /\
  originalShotType (setInitialState toNum later used) = get later "shotType" /\
  originalAngle (setInitialState toNum later used) = get later "angle".
Proof.
  intros initial used.
  destruct (calls_separate toNum cs initial (setInitialState_separate toNum cameraInfo this))
    as (_ & Ho & Ht & Ha). fold used in Ho, Ht, Ha.
  destruct (setInitialState_objects toNum cameraInfo this) as (_ & _ & _ & Ht0 & Ha0).
  fold initial in Ht0, Ha0.
  destruct (setInitialState_objects toNum later used) as (_ & _ & _ & Ht1 & Ha1).
  split; [done|]. split; [congruence|]. split; [congruence|].
  split; [unfold getOriginalState; by rewrite Ho, Ht, Ha|].
  split; [|done].
  apply setInitialState_this_originalState.
Qed.

(** C10.  A [distance] that is present in the payload but falsy (0, NaN,
    null, false, the empty string, or undefined) is replaced by 3. *)
Theorem setInitialState_falsy_distance (toNum : string -> num) (cameraInfo : obj)
    (this : CameraRig) (v : jsval) :
  cameraInfo !! "distance" = Some v ->
  truthy v = false ->
  get (this_state (setInitialState toNum cameraInfo this)) "distance" = VNum (Fin 3).
Proof.
  intros Hv Hfalsy. rewrite setInitialState_this_state. unfold get at 1.
  rewrite lookup_insert_eq. simpl.
  rewrite (get_lookup _ _ _ Hv). by apply js_or_falsy.
Qed.

Lemma setInitialState_falsy_distance_witness :
  get (this_state (setInitialState (fun _ => NaN)
         {[ "distance" := VNull; "yaw" := VNum (Fin 30) ]} constructor)) "distance"
    = VNum (Fin 3).
Proof.
  apply (setInitialState_falsy_distance (fun _ => NaN) _ constructor VNull);
    reflexivity.
Defined.

(** ** Arithmetic on finite numbers *)

Lemma ndiv_Fin (x y : R) : y <> 0 -> (Fin x / Fin y)%js = Fin (x / y).
Proof. intros Hy. unfold ndiv. by destruct (decide (y = 0)). Qed.

Lemma sqrt_Fin (r : R) : 0 <= r -> Math.sqrt (Fin r) = Fin (sqrt r).
Proof. intros Hr. unfold Math.sqrt. destruct (decide (r < 0)); [lra|done]. Qed.

Lemma num_or_Fin (r : R) (b : num) : r <> 0 -> num_or (Fin r) b = Fin r.
Proof. intros Hr. unfold num_or. simpl. by rewrite bool_decide_eq_true_2. Qed.

Lemma nlt_Fin_true (x y : R) : x < y -> nlt (Fin x) (Fin y) = true.
Proof. intros H. simpl. by apply bool_decide_eq_true_2. Qed.

Lemma nlt_Fin_false (x y : R) : y <= x -> nlt (Fin x) (Fin y) = false.
Proof. intros H. simpl. apply bool_decide_eq_false_2. lra. Qed.

Lemma DEG2RAD_Fin : THREE.MathUtils.DEG2RAD = Fin (PI / 180).
Proof. unfold THREE.MathUtils.DEG2RAD, Math.PI. apply ndiv_Fin. lra. Qed.

Lemma degToRad_Fin (a : R) : THREE.MathUtils.degToRad (Fin a) = Fin (a * (PI / 180)).
Proof. unfold THREE.MathUtils.degToRad. by rewrite DEG2RAD_Fin. Qed.

(** ** The camera position *)

Section Position.

Variable toNum : string -> num.

(** The position depends on the live state only. *)
Lemma cameraPosition_state (a b : CameraRig) :
  this_state a = this_state b -> cameraPosition toNum a = cameraPosition toNum b.
Proof. intros H. unfold cameraPosition. by rewrite H. Qed.

Lemma cameraPosition_Fin (this : CameraRig) (d h v : R) :
  get (this_state this) "distance" = VNum (Fin d) ->
  get (this_state this) "orbitH" = VNum (Fin h) ->
  get (this_state this) "orbitV" = VNum (Fin v) ->
  cameraPosition toNum this =
    THREE.Vec3 (Fin (d * cos (v * (PI / 180)) * sin (h * (PI / 180))))
               (Fin (d * sin (v * (PI / 180))))
               (Fin (d * cos (v * (PI / 180)) * cos (h * (PI / 180)))).
Proof.
  intros Hd Hh Hv. unfold cameraPosition. rewrite Hd, Hh, Hv.
  cbn [ToNumber]. by rewrite !degToRad_Fin.
Qed.

Lemma updateViewportFrame_cameraArm (this : CameraRig) :
  cameraArm_position (objects (updateViewportFrame toNum this)) =
  cameraArm_position (objects this).
Proof.
  unfold updateViewportFrame. destruct (nlt _ _); [done|].
  by destruct (viewCenter toNum this).
Qed.

Lemma updatePosition_cameraArm (this : CameraRig) :
  cameraArm_position (objects (updatePosition toNum this)) = cameraPosition toNum this.
Proof.
  unfold updatePosition, updateFrustumLines. simpl.
  by rewrite updateViewportFrame_cameraArm.
Qed.


End Position.



Section DoubleEvaluation.

Import PrimFloat.
Local Open Scope float_scope.


End DoubleEvaluation.

(** ** The viewport frame *)

Section Viewport.

Variable toNum : string -> num.

Lemma viewForward_state (a b : CameraRig) :
  this_state a = this_state b -> viewForward toNum a = viewForward toNum b.
Proof.
  intros H. unfold viewForward.
  by rewrite (cameraPosition_state toNum a b H), H.
Qed.

Lemma viewCenter_state (a b : CameraRig) :
  this_state a = this_state b -> viewCenter toNum a = viewCenter toNum b.
Proof.
  intros H. unfold viewCenter.
  by rewrite (cameraPosition_state toNum a b H), (viewForward_state a b H).
Qed.

(** The fifteen writes fill a buffer of fifteen numbers, each stored in
    single precision. *)
Lemma frame_buffer (l : list num) (x0 y0 z0 x1 y1 z1 x2 y2 z2 x3 y3 z3 x4 y4 z4 : num) :
  length l = 15%nat ->
  array_set (array_set (array_set (array_set (array_set (array_set (array_set
    (array_set (array_set (array_set (array_set (array_set (array_set (array_set
    (array_set l 0 x0) 1 y0) 2 z0) 3 x1) 4 y1) 5 z1) 6 x2) 7 y2) 8 z2) 9 x3)
    10 y3) 11 z3) 12 x4) 13 y4) 14 z4
  = map Math.fround [x0; y0; z0; x1; y1; z1; x2; y2; z2; x3; y3; z3; x4; y4; z4].
Proof.
  intros Hl.
  do 15 (destruct l as [|? l]; [done|]).
  by destruct l.
Qed.

(** The near-plane branch: both flags off, nothing else written. *)
Lemma updateViewportFrame_near (this : CameraRig) :
  nlt (Math.abs (THREE.z (cameraPosition toNum this))) (Fin (1 / 10)) = true ->
  let o := objects this in
  objects (updateViewportFrame toNum this) =
    {| cameraArm_position := cameraArm_position o;
       cameraPivot_rotation_x := cameraPivot_rotation_x o;
       cameraPivot_rotation_y := cameraPivot_rotation_y o;
       orbitPath_scale := orbitPath_scale o;
       viewportFrame_visible := false;
       viewportFrame_positions := viewportFrame_positions o;
       viewportPlane_visible := false;
       viewportPlane_scale := viewportPlane_scale o;
       viewportPlane_position := viewportPlane_position o;
       viewportPlane_rotation_y := viewportPlane_rotation_y o;
       frustumLines_positions := frustumLines_positions o;
       group_visible := group_visible o |}.
Proof. intros Hnear o. unfold updateViewportFrame. by rewrite Hnear. Qed.

(** The other branch: the plane's scale and position. *)
Lemma updateViewportFrame_far (this : CameraRig) :
  nlt (Math.abs (THREE.z (cameraPosition toNum this))) (Fin (1 / 10)) = false ->
  let camZ := THREE.z (cameraPosition toNum this) in
  let viewHeight :=
    (baseViewHeight (Math.abs camZ) * viewScale this (Math.abs camZ))%js in
  let after := objects (updateViewportFrame toNum this) in
  viewportFrame_visible after = true /\
  viewportPlane_visible after = true /\
  viewportPlane_scale after =
    THREE.Vec3 (viewHeight * aspectRatio this)%js viewHeight (Fin 1) /\
  viewportPlane_position after =
    THREE.Vec3 (clampCenter (imageWidth this) (viewCenter toNum this).1)
               (clampCenter (imageWidth this) (viewCenter toNum this).2)
               (if ngt camZ (Fin 0) then Fin (1 / 100) else Fin (- (1 / 100))).
Proof.
  intros Hfar camZ viewHeight after. subst after camZ viewHeight.
  unfold updateViewportFrame. rewrite Hfar.
  by destruct (viewCenter toNum this).
Qed.

(** The other branch: the frame's corners, for the buffer the constructor
    allocates. *)
Lemma updateViewportFrame_corners (this : CameraRig) :
  nlt (Math.abs (THREE.z (cameraPosition toNum this))) (Fin (1 / 10)) = false ->
  length (viewportFrame_positions (objects this)) = 15%nat ->
  let after := objects (updateViewportFrame toNum this) in
  let cx := THREE.x (viewportPlane_position after) in
  let cy := THREE.y (viewportPlane_position after) in
  let frameZ := THREE.z (viewportPlane_position after) in
  let hw := (THREE.x (viewportPlane_scale after) / Fin 2)%js in
  let hh := (THREE.y (viewportPlane_scale after) / Fin 2)%js in
  viewportFrame_positions after =
    map Math.fround
      [ (cx - hw)%js; (cy - hh)%js; frameZ;
        (cx + hw)%js; (cy - hh)%js; frameZ;
        (cx + hw)%js; (cy + hh)%js; frameZ;
        (cx - hw)%js; (cy + hh)%js; frameZ;
        (cx - hw)%js; (cy - hh)%js; frameZ ].
Proof.
  intros Hfar Hlen after. subst after.
  unfold updateViewportFrame. rewrite Hfar.
  destruct (viewCenter toNum this) as [centerX centerY].
  cbn [objects with_objects viewportFrame_positions viewportPlane_position
       viewportPlane_scale THREE.x THREE.y THREE.z].
  by apply frame_buffer.
Qed.

(** The corner buffer keeps its length: 15, as the constructor made it. *)
Lemma updateViewportFrame_buffer_length (this : CameraRig) :
  length (viewportFrame_positions (objects (updateViewportFrame toNum this))) =
  length (viewportFrame_positions (objects this)).
Proof.
  unfold updateViewportFrame. destruct (nlt _ _); [done|].
  destruct (viewCenter toNum this).
  cbn [objects with_objects viewportFrame_positions]. unfold array_set.
  by rewrite !length_insert.
Qed.

Lemma updatePosition_buffer_length (this : CameraRig) :
  length (viewportFrame_positions (objects (updatePosition toNum this))) =
  length (viewportFrame_positions (objects this)).
Proof.
  unfold updatePosition, updateFrustumLines. simpl.
  by rewrite updateViewportFrame_buffer_length.
Qed.

Lemma calls_buffer_length (cs : list Call) (this : CameraRig) :
  length (viewportFrame_positions (objects (calls toNum this cs))) =
  length (viewportFrame_positions (objects this)).
Proof.
  revert this. induction cs as [|c cs IH]; intros this; [done|].
  simpl. rewrite IH. destruct c; simpl;
    unfold updateState, resetToOriginal, setAspectRatio, setImageSize, alloc;
    cbv zeta;
    by rewrite ?updatePosition_buffer_length, ?updateViewportFrame_buffer_length.
Qed.

Lemma rig_buffer_length (cameraInfo : obj) (cs : list Call) :
  length (viewportFrame_positions
            (objects (calls toNum (setInitialState toNum cameraInfo constructor) cs))) = 15%nat.
Proof.
  rewrite calls_buffer_length. unfold setInitialState, alloc. cbv zeta.
  by rewrite updatePosition_buffer_length.
Qed.

(** [updatePosition] leaves the frame as [updateViewportFrame] alone would. *)
Lemma updatePosition_viewport (this : CameraRig) :
  let a := objects (updatePosition toNum this) in
  let b := objects (updateViewportFrame toNum this) in
  viewportFrame_visible a = viewportFrame_visible b /\
  viewportPlane_visible a = viewportPlane_visible b /\
  viewportFrame_positions a = viewportFrame_positions b /\
  viewportPlane_scale a = viewportPlane_scale b /\
  viewportPlane_position a = viewportPlane_position b.
Proof.
  unfold updatePosition, updateFrustumLines. simpl.
  match goal with |- context [updateViewportFrame toNum (with_objects this ?o)] =>
    set (moved := with_objects this o) end.
  assert (this_state moved = this_state this) as Hst by done.
  unfold updateViewportFrame.
  rewrite (cameraPosition_state toNum moved this Hst), (viewCenter_state moved this Hst).
  destruct (nlt _ _); [done|].
  by destruct (viewCenter toNum this).
Qed.

End Viewport.

(** C2.  When |camZ| is below 0.1, [updateViewportFrame] (alone, or as part
    of the recomputation [updatePosition] runs after every state change)
    switches the frame and its plane to not visible and writes no
    coordinate: the corner buffer and the plane's scale and position are
    what they were, so the division by the plane distance does not happen
    and no NaN or infinity is produced. *)
Theorem near_plane_not_visible (toNum : string -> num) (this : CameraRig) :
  nlt (Math.abs (THREE.z (cameraPosition toNum this))) (Fin (1 / 10)) = true ->
  let before := objects this in
  let after := objects (updateViewportFrame toNum this) in
  let recomputed := objects (updatePosition toNum this) in
  (viewportFrame_visible after = false /\
   viewportPlane_visible after = false /\
   viewportFrame_positions after = viewportFrame_positions before /\
   viewportPlane_scale after = viewportPlane_scale before /\
   viewportPlane_position after = viewportPlane_position before) /\
  (viewportFrame_visible recomputed = false /\
   viewportPlane_visible recomputed = false /\
   viewportFrame_positions recomputed = viewportFrame_positions before /\
   viewportPlane_scale recomputed = viewportPlane_scale before /\
   viewportPlane_position recomputed = viewportPlane_position before).
Proof.
  intros Hnear before after recomputed.
  assert (viewportFrame_visible after = false /\
          viewportPlane_visible after = false /\
          viewportFrame_positions after = viewportFrame_positions before /\
          viewportPlane_scale after = viewportPlane_scale before /\
          viewportPlane_position after = viewportPlane_position before) as H.
  { subst after. by rewrite (updateViewportFrame_near toNum this Hnear). }
  split; [done|]. subst recomputed.
  destruct (updatePosition_viewport toNum this) as (-> & -> & -> & -> & ->).
  done.
Qed.

Lemma near_plane_not_visible_witness :
  viewportFrame_visible
    (objects (updateViewportFrame (fun _ => NaN)
       (updateState (fun _ => NaN) {[ "distance" := VNum (Fin (1 / 20)) ]} constructor)))
  = false.
Proof.
  set (this := updateState _ _ _).
  assert (nlt (Math.abs (THREE.z (cameraPosition (fun _ => NaN) this))) (Fin (1 / 10)) = true)
    as Hnear.
  { rewrite (cameraPosition_Fin (fun _ => NaN) this (1 / 20) 0 0);
      [| unfold this; rewrite updateState_this_state; reflexivity ..].
    cbn [THREE.z Math.abs]. apply nlt_Fin_true.
    replace (0 * (PI / 180)) with 0 by lra. rewrite cos_0.
    apply Rabs_def1; lra. }
  exact (proj1 (proj1 (near_plane_not_visible (fun _ => NaN) this Hnear))).
Defined.

(** ** The size of the frame *)

Lemma half_fov_cos : cos (50 / 2 * (PI / 180)) <> 0.
Proof.
  pose proof PI_RGT_0.
  apply Rgt_not_eq, cos_gt_0; lra.
Qed.

Lemma half_fov_tan : 0 < tan (50 / 2 * (PI / 180)).
Proof. pose proof PI_RGT_0. apply tan_gt_0; lra. Qed.

Lemma baseViewHeight_Fin (r : R) :
  baseViewHeight (Fin r) = Fin (2 * tan (50 / 2 * (PI / 180)) * r).
Proof.
  unfold baseViewHeight.
  rewrite ndiv_Fin by lra. rewrite degToRad_Fin.
  unfold Math.tan. cbn [Math.sin Math.cos].
  rewrite ndiv_Fin by apply half_fov_cos. done.
Qed.

Lemma viewScale_Fin (this : CameraRig) (r ih : R) :
  imageHeight this = Fin ih ->
  0 < r ->
  viewScale this (Fin r) =
    Fin (Rmax (1 / 2) (Rmin 2 (ih * (11 / 10) / (2 * tan (50 / 2 * (PI / 180)) * r)))).
Proof.
  intros Hih Hr. unfold viewScale. rewrite Hih, baseViewHeight_Fin.
  cbn [nmul]. rewrite ndiv_Fin; [done|].
  pose proof half_fov_tan. apply Rgt_not_eq. nra.
Qed.

(** C5.  For a numeric state with distance in [0.1, 1000] whose frame is
    produced (the test of the source finds the camera at least 0.1 from
    the plane), the frame is shown and its height is the base height
    2 tan(25 degrees) |camZ| times a scale between 0.5 and 2: that height
    is given to the plane, and the corners are written half of it below
    and above the centre, in the single precision of the buffer. *)
Theorem frame_scale_clamped (toNum : string -> num) (this : CameraRig)
    (d h v ih : R) :
  get (this_state this) "distance" = VNum (Fin d) ->
  get (this_state this) "orbitH" = VNum (Fin h) ->
  get (this_state this) "orbitV" = VNum (Fin v) ->
  imageHeight this = Fin ih ->
  length (viewportFrame_positions (objects this)) = 15%nat ->
  1 / 10 <= d <= 1000 ->
  nlt (Math.abs (THREE.z (cameraPosition toNum this))) (Fin (1 / 10)) = false ->
  let distToPlane := Rabs (d * cos (v * (PI / 180)) * cos (h * (PI / 180))) in
  let base := 2 * tan (50 / 2 * (PI / 180)) * distToPlane in
  let after := objects (updateViewportFrame toNum this) in
  let cy := THREE.y (viewportPlane_position after) in
  exists scale : R,
    1 / 2 <= scale <= 2 /\
    Math.abs (THREE.z (cameraPosition toNum this)) = Fin distToPlane /\
    baseViewHeight (Math.abs (THREE.z (cameraPosition toNum this))) = Fin base /\
    viewScale this (Math.abs (THREE.z (cameraPosition toNum this))) = Fin scale /\
    viewportFrame_visible after = true /\
    THREE.y (viewportPlane_scale after) = Fin (base * scale) /\
    array_get (viewportFrame_positions after) 1 =
      Math.fround (cy - Fin (base * scale / 2))%js /\
    array_get (viewportFrame_positions after) 7 =
      Math.fround (cy + Fin (base * scale / 2))%js.
Proof.
  intros Hd Hh Hv Hih Hlen Hrange Hbranch distToPlane base after cy.
  pose proof (cameraPosition_Fin toNum this d h v Hd Hh Hv) as Hpos.
  assert (Math.abs (THREE.z (cameraPosition toNum this)) = Fin distToPlane) as Habs
    by (by rewrite Hpos).
  assert (1 / 10 <= distToPlane) as Hfar.
  { rewrite Habs in Hbranch. cbn [nlt] in Hbranch.
    apply bool_decide_eq_false_1 in Hbranch. lra. }
  assert (0 < distToPlane) as Hpos_dist by lra.
  exists (Rmax (1 / 2) (Rmin 2 (ih * (11 / 10) / base))).
  destruct (updateViewportFrame_far toNum this Hbranch) as (Hvis & _ & Hscale & _).
  pose proof (updateViewportFrame_corners toNum this Hbranch Hlen) as Hcorners.
  cbv zeta in Hcorners. fold after in Hvis, Hscale, Hcorners. fold cy in Hcorners.
  rewrite Habs in Hscale |- *.
  rewrite baseViewHeight_Fin in Hscale |- *.
  rewrite (viewScale_Fin this distToPlane ih Hih Hpos_dist) in Hscale |- *.
  fold base in Hscale |- *. cbn [nmul] in Hscale.
  split; [|split; [done|split; [done|split; [done|split; [done|]]]]].
  - split; [apply Rmax_l|].
    apply Rmax_lub; [lra|apply Rmin_l].
  - rewrite Hcorners, Hscale.
    cbn [THREE.y map array_get lookup list_lookup default].
    by rewrite ndiv_Fin by lra.
Qed.

Lemma frame_scale_clamped_witness :
  exists scale : R,
    1 / 2 <= scale <= 2 /\
    viewportFrame_visible (objects (updateViewportFrame (fun _ => NaN) constructor)) = true /\
    THREE.y (viewportPlane_scale (objects (updateViewportFrame (fun _ => NaN) constructor)))
      = Fin (2 * tan (50 / 2 * (PI / 180))
             * Rabs (3 * cos (0 * (PI / 180)) * cos (0 * (PI / 180))) * scale).
Proof.
  assert (nlt (Math.abs (THREE.z (cameraPosition (fun _ => NaN) constructor)))
              (Fin (1 / 10)) = false) as Hfar.
  { rewrite (cameraPosition_Fin (fun _ => NaN) constructor 3 0 0) by reflexivity.
    cbn [THREE.z Math.abs]. apply nlt_Fin_false.
    replace (0 * (PI / 180)) with 0 by lra. rewrite cos_0.
    rewrite Rabs_pos_eq; lra. }
  destruct (frame_scale_clamped (fun _ => NaN) constructor 3 0 0 2
              eq_refl eq_refl eq_refl eq_refl eq_refl ltac:(lra) Hfar)
    as (scale & Hscale & _ & _ & _ & Hvis & Hheight & _).
  exists scale. split; [exact Hscale|]. split; [exact Hvis|exact Hheight].
Defined.

(** ** The centre of the frame *)

Lemma clampCenter_Fin (w : R) (c : num) :
  0 <= w ->
  exists r : R,
    clampCenter (Fin w) c = Fin r /\ - w <= r <= w /\
    (if isNaN c then r else 0) = 0.
Proof.
  intros Hw. unfold clampCenter. destruct c as [x| | |]; cbn.
  - exists (Rmax (- w) (Rmin w x)). split; [done|]. split; [|done].
    split; [apply Rmax_l|]. apply Rmax_lub; [lra|apply Rmin_l].
  - exists (Rmax (- w) w). split; [done|]. split; [|done].
    split; [apply Rmax_l|]. apply Rmax_lub; lra.
  - exists (- w). split; [done|]. split; [lra|done].
  - exists (Rmax (- w) (Rmin w 0)). split; [done|].
    rewrite Rmin_right, Rmax_right by lra. split; [lra|done].
Qed.

Lemma normalize_Fin (x y z n : R) :
  0 < n -> x * x + y * y + z * z = n * n ->
  THREE.normalize (THREE.Vec3 (Fin x) (Fin y) (Fin z)) =
  THREE.Vec3 (Fin (x / n)) (Fin (y / n)) (Fin (z / n)).
Proof.
  intros Hn Hsq.
  unfold THREE.normalize, THREE.divideScalar, THREE.multiplyScalar, THREE.length.
  cbn [THREE.x THREE.y THREE.z nadd nmul].
  rewrite sqrt_Fin by (rewrite Hsq; nra).
  rewrite Hsq, sqrt_square by lra.
  rewrite num_or_Fin by lra. rewrite ndiv_Fin by lra.
  cbn [nmul]. f_equal; f_equal; field; lra.
Qed.

Lemma setFromAxisAngle_Fin (ax ay az angle : R) :
  THREE.setFromAxisAngle (THREE.Vec3 (Fin ax) (Fin ay) (Fin az)) (Fin angle) =
  THREE.Quat (Fin (ax * sin (angle / 2))) (Fin (ay * sin (angle / 2)))
             (Fin (az * sin (angle / 2))) (Fin (cos (angle / 2))).
Proof.
  unfold THREE.setFromAxisAngle. rewrite ndiv_Fin by lra. done.
Qed.

Section Tilted.

Variable toNum : string -> num.

Lemma tilted_state :
  this_state (tilted_rig toNum) =
    {[ "distance" := VNum (Fin 2); "tilt" := VNum (Fin 60) ]} ∪ this_state constructor.
Proof.
  unfold tilted_rig. rewrite updateState_this_state. f_equal.
  unfold setImageSize. controller_fields. done.
Qed.

Lemma tilted_image :
  imageWidth (tilted_rig toNum) = Fin 4 /\ imageHeight (tilted_rig toNum) = Fin 2.
Proof.
  unfold tilted_rig, updateState.
  match goal with |- context [updatePosition toNum ?r] =>
    destruct (updatePosition_controller toNum r) as (_&_&_&_&_&_& -> & ->) end.
  cbn [imageWidth imageHeight]. unfold setImageSize.
  match goal with |- context [updateViewportFrame toNum ?r] =>
    destruct (updateViewportFrame_controller toNum r) as (_&_&_&_&_&_& -> & ->) end.
  done.
Qed.

Lemma tilted_position :
  cameraPosition toNum (tilted_rig toNum) = THREE.Vec3 (Fin 0) (Fin 0) (Fin 2).
Proof.
  rewrite (cameraPosition_Fin toNum (tilted_rig toNum) 2 0 0);
    [| rewrite tilted_state; reflexivity ..].
  replace (0 * (PI / 180)) with 0 by lra. rewrite cos_0, sin_0.
  f_equal; f_equal; lra.
Qed.

(** Looking at the origin from (0, 0, 2) and tilting by 60 degrees. *)
Lemma tilted_forward :
  viewForward toNum (tilted_rig toNum) =
    THREE.Vec3 (Fin 0) (Fin (sqrt 3 / 2)) (Fin (- (1 / 2))).
Proof.
  unfold viewForward. rewrite tilted_position.
  assert (get (this_state (tilted_rig toNum)) "pan" = VNum (Fin 0)) as ->
    by (rewrite tilted_state; reflexivity).
  assert (get (this_state (tilted_rig toNum)) "tilt" = VNum (Fin 60)) as ->
    by (rewrite tilted_state; reflexivity).
  cbn [THREE.x THREE.y THREE.z nneg ToNumber].
  rewrite !degToRad_Fin.
  rewrite (normalize_Fin (Ropp 0) (Ropp 0) (Ropp 2) 2) by lra.
  replace (Ropp 0 / 2) with 0 by lra. replace (Ropp 2 / 2) with (Ropp 1) by lra.
  unfold THREE.crossVectors. cbn [THREE.x THREE.y THREE.z nsub nadd nmul nneg].
  rewrite (normalize_Fin _ _ _ 1) by lra.
  cbn [THREE.x THREE.y THREE.z nsub nadd nmul nneg].
  rewrite (normalize_Fin _ _ _ 1) by lra.
  rewrite !setFromAxisAngle_Fin.
  replace (0 * (PI / 180) / 2) with 0 by lra.
  replace (60 * (PI / 180) / 2) with (PI / 6) by lra.
  rewrite sin_0, cos_0, sin_PI6, cos_PI6.
  unfold THREE.applyQuaternion.
  cbn [THREE.x THREE.y THREE.z THREE._x THREE._y THREE._z THREE._w nsub nadd nmul nneg].
  f_equal; f_equal; lra.
Qed.

Lemma tilted_center :
  viewCenter toNum (tilted_rig toNum) = (Fin 0, Fin (2 * sqrt 3)).
Proof.
  unfold viewCenter. rewrite tilted_position, tilted_forward.
  cbn [THREE.x THREE.y THREE.z nneg].
  rewrite !ndiv_Fin by lra.
  cbn [nadd nmul]. f_equal; f_equal; field.
Qed.

Lemma sqrt3_bounds : 1 < sqrt 3 < 2.
Proof.
  split.
  - rewrite <- sqrt_1 at 1. apply sqrt_lt_1; lra.
  - rewrite <- (sqrt_square 2) by lra. apply sqrt_lt_1; lra.
Qed.

End Tilted.

(** C4, as the code has it.  When the frame is produced (|camZ| not below
    0.1) and the image width is a number w >= 0, the centre of the frame is
    the projected point (camX + forward.x / forward.z * (- camZ),
    camY + forward.y / forward.z * (- camZ)) with each coordinate clamped to
    [- w, w]: the image WIDTH bounds both the X and the Y coordinate.  A
    coordinate that is NaN is replaced by 0. *)
Theorem center_clamped_by_width (toNum : string -> num) (this : CameraRig) (w : R) :
  imageWidth this = Fin w ->
  0 <= w ->
  nlt (Math.abs (THREE.z (cameraPosition toNum this))) (Fin (1 / 10)) = false ->
  let cam := cameraPosition toNum this in
  let forward := viewForward toNum this in
  let centerX := (THREE.x cam + (THREE.x forward / THREE.z forward) * (- THREE.z cam))%js in
  let centerY := (THREE.y cam + (THREE.y forward / THREE.z forward) * (- THREE.z cam))%js in
  let after := objects (updateViewportFrame toNum this) in
  exists cx cy : R,
    THREE.x (viewportPlane_position after) = Fin cx /\
    THREE.y (viewportPlane_position after) = Fin cy /\
    Fin cx = clampCenter (Fin w) centerX /\
    Fin cy = clampCenter (Fin w) centerY /\
    - w <= cx <= w /\
    - w <= cy <= w /\
    (if isNaN centerX then cx else 0) = 0 /\
    (if isNaN centerY then cy else 0) = 0.
Proof.
  intros Hw Hpos Hfar cam forward centerX centerY after.
  destruct (updateViewportFrame_far toNum this Hfar) as (_ & _ & _ & Hcenter).
  fold after in Hcenter. rewrite Hw in Hcenter.
  assert (viewCenter toNum this = (centerX, centerY)) as Hvc by done.
  rewrite Hvc in Hcenter. cbn [fst snd] in Hcenter.
  destruct (clampCenter_Fin w centerX Hpos) as (cx & Hcx & Hbx & Hnx).
  destruct (clampCenter_Fin w centerY Hpos) as (cy & Hcy & Hby & Hny).
  exists cx, cy. rewrite Hcenter. cbn [THREE.x THREE.y].
  rewrite Hcx, Hcy. done.
Qed.

Lemma center_clamped_by_width_witness :
  exists cx cy : R,
    THREE.x (viewportPlane_position
               (objects (updateViewportFrame (fun _ => NaN) (tilted_rig (fun _ => NaN)))))
      = Fin cx /\
    THREE.y (viewportPlane_position
               (objects (updateViewportFrame (fun _ => NaN) (tilted_rig (fun _ => NaN)))))
      = Fin cy /\
    - 4 <= cx <= 4 /\ - 4 <= cy <= 4.
Proof.
  assert (nlt (Math.abs (THREE.z (cameraPosition (fun _ => NaN) (tilted_rig (fun _ => NaN)))))
              (Fin (1 / 10)) = false) as Hfar.
  { rewrite tilted_position. cbn [THREE.z Math.abs].
    apply nlt_Fin_false. rewrite Rabs_pos_eq; lra. }
  destruct (center_clamped_by_width (fun _ => NaN) (tilted_rig (fun _ => NaN)) 4
              (proj1 (tilted_image (fun _ => NaN))) ltac:(lra) Hfar)
    as (cx & cy & Hx & Hy & _ & _ & Hbx & Hby & _).
  exists cx, cy. split; [exact Hx|]. split; [exact Hy|]. split; [exact Hbx|exact Hby].
Defined.

(** C4 as stated fails: on the tilted rig the image is 2 high, the frame is
    produced, and the Y coordinate of its centre is 2 sqrt 3, beyond the
    image height. *)
Lemma center_y_beyond_image_height :
  imageHeight (tilted_rig (fun _ => NaN)) = Fin 2 /\
  nlt (Math.abs (THREE.z (cameraPosition (fun _ => NaN) (tilted_rig (fun _ => NaN)))))
      (Fin (1 / 10)) = false /\
  viewportFrame_visible
    (objects (updateViewportFrame (fun _ => NaN) (tilted_rig (fun _ => NaN)))) = true /\
  THREE.y (viewportPlane_position
             (objects (updateViewportFrame (fun _ => NaN) (tilted_rig (fun _ => NaN)))))
    = Fin (2 * sqrt 3) /\
  ~ (- 2 <= 2 * sqrt 3 <= 2).
Proof.
  set (toNum := fun _ : string => NaN).
  assert (nlt (Math.abs (THREE.z (cameraPosition toNum (tilted_rig toNum)))) (Fin (1 / 10)) = false)
    as Hfar.
  { rewrite tilted_position. cbn [THREE.z Math.abs].
    apply nlt_Fin_false. rewrite Rabs_pos_eq; lra. }
  pose proof sqrt3_bounds as Hsqrt.
  destruct (updateViewportFrame_far toNum (tilted_rig toNum) Hfar) as (Hvis & _ & _ & Hcenter).
  split; [apply tilted_image|]. split; [done|]. split; [done|].
  split; [|lra].
  rewrite Hcenter, tilted_center, (proj1 (tilted_image toNum)).
  cbn [THREE.y fst snd]. unfold clampCenter. cbn [isNaN nneg Math.min Math.max].
  f_equal. rewrite Rmin_right, Rmax_right; lra.
Qed.

(** ** The fallback of the image analysis *)

Example replace_fences_fenced :
  replace_fences 0
    (String.append "```json" (String newline (String.append "{}" (String newline "```"))))
  = "{}"%string.
Proof. reflexivity. Qed.

Example includes_api_key :
  includes "API key" "API key not valid. Please pass a valid API key." = true /\
  includes "API key" "Unexpected end of JSON input" = false.
Proof. split; reflexivity. Qed.

Section Fallback.

Variable trim : string -> string.
Variable JSON_parse : string -> outcome parsed.
Variable match_data_url : string -> option (string * string).

(** A response whose cleaned text does not parse makes the [try] body
    throw what [JSON.parse] throws. *)
Lemma analyze_attempt_parse_failure
    (generateContent : string -> string -> outcome (option string))
    (mimeType base64Data : string) (response_text : option string) (e : Error) :
  generateContent mimeType base64Data = Return response_text ->
  JSON_parse (trim (replace_fences 0 (default EmptyString response_text))) = Throw e ->
  analyze_attempt trim JSON_parse generateContent mimeType base64Data = Throw e.
Proof. intros Hcall Hparse. unfold analyze_attempt. by rewrite Hcall. Qed.

Lemma analyzeImage_catch (apiKey : outcome jsval)
    (generateContent : string -> string -> outcome (option string))
    (imageBase64 mimeType base64Data : string) (e : Error) (m : string) :
  getAIClient apiKey = Return tt ->
  match_data_url imageBase64 = Some (mimeType, base64Data) ->
  analyze_attempt trim JSON_parse generateContent mimeType base64Data = Throw e ->
  message e = VStr m ->
  analyzeImage trim JSON_parse match_data_url apiKey generateContent imageBase64 =
    if includes "API key" m then Throw e else Return (ParsedObject default_analysis).
Proof.
  intros Hclient Hmatch Hattempt Hmsg. unfold analyzeImage.
  rewrite Hclient, Hmatch, Hattempt. unfold message_includes. rewrite Hmsg.
  by destruct (includes "API key" m).
Qed.

End Fallback.

(** What the [catch] makes of a failure.  When the client is configured
    and the image is a data URL, a response whose text cannot be parsed
    makes [analyzeImage] return the default record (distance 3,
    focalLength 50, pitch 0, yaw 0, roll 0, height 1.6, shotType
    "medium shot", angle "eye level", lens "normal", and a description
    saying so) instead of throwing, unless the error's message contains
    "API key": that error, like one thrown by the call itself with such a
    message, is thrown again to the caller. *)
Theorem analyzeImage_fallback
    (trim : string -> string) (JSON_parse : string -> outcome parsed)
    (match_data_url : string -> option (string * string))
    (apiKey : outcome jsval)
    (generateContent : string -> string -> outcome (option string))
    (imageBase64 mimeType base64Data : string) (response : outcome (option string))
    (e : Error) (m : string) :
  getAIClient apiKey = Return tt ->
  match_data_url imageBase64 = Some (mimeType, base64Data) ->
  generateContent mimeType base64Data = response ->
  match response with
  | Return response_text =>
      JSON_parse (trim (replace_fences 0 (default EmptyString response_text))) = Throw e
  | Throw e' => e' = e /\ includes "API key" m = true
  end ->
  message e = VStr m ->
  analyzeImage trim JSON_parse match_data_url apiKey generateContent imageBase64 =
    (if includes "API key" m then Throw e else Return (ParsedObject default_analysis)) /\
  get default_analysis "distance" = VNum (Fin 3) /\
  get default_analysis "focalLength" = VNum (Fin 50) /\
  get default_analysis "pitch" = VNum (Fin 0) /\
  get default_analysis "yaw" = VNum (Fin 0) /\
  get default_analysis "roll" = VNum (Fin 0) /\
  get default_analysis "height" = VNum (Fin (16 / 10)) /\
  get default_analysis "shotType" = VStr "medium shot" /\
  get default_analysis "angle" = VStr "eye level" /\
  get default_analysis "lens" = VStr "normal".
Proof.
  intros Hclient Hmatch Hcall Hfail Hmsg.
  split; [|by repeat split].
  apply (analyzeImage_catch trim JSON_parse match_data_url apiKey generateContent
           imageBase64 mimeType base64Data e m Hclient Hmatch); [|done].
  destruct response as [response_text|e'].
  - by apply (analyze_attempt_parse_failure _ _ _ _ _ response_text).
  - destruct Hfail as [-> _]. unfold analyze_attempt. by rewrite Hcall.
Qed.

Lemma analyzeImage_fallback_witness :
  analyzeImage (fun s => s)
    (fun _ => Throw {| message := VStr "Unexpected token N in JSON" |})
    (fun _ => Some ("image/png"%string, "AAAA"%string))
    (Return (VStr "key"))
    (fun _ _ => Return (Some "Not a camera"%string))
    "data:image/png;base64,AAAA"
  = Return (ParsedObject default_analysis).
Proof.
  exact (proj1 (analyzeImage_fallback (fun s => s)
    (fun _ => Throw {| message := VStr "Unexpected token N in JSON" |})
    (fun _ => Some ("image/png"%string, "AAAA"%string))
    (Return (VStr "key"))
    (fun _ _ => Return (Some "Not a camera"%string))
    "data:image/png;base64,AAAA" "image/png" "AAAA"
    (Return (Some "Not a camera"%string))
    {| message := VStr "Unexpected token N in JSON" |}
    "Unexpected token N in JSON"
    eq_refl eq_refl eq_refl eq_refl eq_refl)).
Defined.

(** C8.  A response that cannot be parsed is not always answered with the
    default record: the test that tells a credential error, "the message
    contains API key", also holds of a parse error whose message quotes
    such a text.  With a configured key and the response text [API key],
    for which [JSON.parse] of V8 throws the SyntaxError
    [Unexpected token 'A', "API key" is not valid JSON], [analyzeImage]
    throws that error to the caller. *)
Lemma analyzeImage_rethrows_parse_error :
  let syntax_error :=
    {| message :=
         VStr (String.concat EmptyString
                 [ "Unexpected token 'A', "; dquote; "API key"; dquote;
                   " is not valid JSON" ]) |} in
  let JSON_parse := fun _ : string => @Throw parsed syntax_error in
  analyze_attempt (fun s => s) JSON_parse
    (fun _ _ => Return (Some "API key"%string)) "image/png" "AAAA" =
    Throw syntax_error /\
  analyzeImage (fun s => s) JSON_parse
    (fun _ => Some ("image/png"%string, "AAAA"%string)) (Return (VStr "key"))
    (fun _ _ => Return (Some "API key"%string)) "data:image/png;base64,AAAA" =
    Throw syntax_error /\
  analyzeImage (fun s => s) JSON_parse
    (fun _ => Some ("image/png"%string, "AAAA"%string)) (Return (VStr "key"))
    (fun _ _ => Return (Some "API key"%string)) "data:image/png;base64,AAAA" <>
    Return (ParsedObject default_analysis).
Proof. split; [reflexivity|]. split; [reflexivity|discriminate]. Qed.

(** ** More on the controller *)

(** The position reads three properties of the state and nothing else. *)
Lemma cameraPosition_gets (toNum : string -> num) (a b : CameraRig) :
  get (this_state a) "distance" = get (this_state b) "distance" ->
  get (this_state a) "orbitH" = get (this_state b) "orbitH" ->
  get (this_state a) "orbitV" = get (this_state b) "orbitV" ->
  cameraPosition toNum a = cameraPosition toNum b.
Proof. intros Hd Hh Hv. unfold cameraPosition. by rewrite Hd, Hh, Hv. Qed.

Lemma get_union_None (newState o : obj) (key : string) :
  newState !! key = None -> get (newState ∪ o) key = get o key.
Proof.
  intros Hnone. unfold get. rewrite lookup_union, Hnone.
  by destruct (o !! key).
Qed.

Lemma updatePosition_pose (toNum : string -> num) (this : CameraRig) :
  let after := objects (updatePosition toNum this) in
  orbitPath_scale after = get (this_state this) "distance" /\
  cameraPivot_rotation_y after =
    THREE.MathUtils.degToRad (ToNumber toNum (get (this_state this) "pan")) /\
  cameraPivot_rotation_x after =
    THREE.MathUtils.degToRad (ToNumber toNum (get (this_state this) "tilt")).
Proof.
  unfold updatePosition, updateFrustumLines. simpl.
  unfold updateViewportFrame. destruct (nlt _ _); [done|].
  match goal with |- context [viewCenter toNum ?r] => by destruct (viewCenter toNum r) end.
Qed.

(** X1.  A partial update that names none of [distance], [orbitH] and
    [orbitV] (a pan or tilt change, say) leaves the camera where the state
    before the update puts it: pan and tilt turn the gaze, they do not move
    the camera. *)
Theorem updateState_gaze_keeps_position (toNum : string -> num)
    (this : CameraRig) (newState : obj) :
  newState !! "distance" = None ->
  newState !! "orbitH" = None ->
  newState !! "orbitV" = None ->
  cameraArm_position (objects (updateState toNum newState this)) =
  cameraPosition toNum this.
Proof.
  intros Hd Hh Hv. unfold updateState. rewrite updatePosition_cameraArm.
  apply cameraPosition_gets; unfold this_state at 1; cbn [heap state];
    rewrite deref_insert_eq; by apply get_union_None.
Qed.

Lemma updateState_gaze_keeps_position_witness :
  cameraArm_position
    (objects (updateState (fun _ => NaN)
       {[ "pan" := VNum (Fin 10); "tilt" := VNum (Fin (-5)) ]} constructor)) =
  cameraPosition (fun _ => NaN) constructor.
Proof.
  apply (updateState_gaze_keeps_position (fun _ => NaN) constructor
           {[ "pan" := VNum (Fin 10); "tilt" := VNum (Fin (-5)) ]});
    reflexivity.
Defined.

(** X2.  After every [updateState] the orbit path is scaled by the
    [distance] the state now holds, and the pivot is turned by the state's
    [pan] (around y) and [tilt] (around x) converted to radians. *)
Theorem updateState_orbit_and_pivot (toNum : string -> num) (this : CameraRig)
    (newState : obj) :
  let this' := updateState toNum newState this in
  orbitPath_scale (objects this') = get (this_state this') "distance" /\
  cameraPivot_rotation_y (objects this') =
    THREE.MathUtils.degToRad (ToNumber toNum (get (this_state this') "pan")) /\
  cameraPivot_rotation_x (objects this') =
    THREE.MathUtils.degToRad (ToNumber toNum (get (this_state this') "tilt")).
Proof.
  intros this'. subst this'. rewrite updateState_this_state.
  unfold updateState.
  match goal with |- context [updatePosition toNum ?r] =>
    destruct (updatePosition_pose toNum r) as (-> & -> & ->);
    assert (this_state r = newState ∪ this_state this) as ->
      by (unfold this_state at 1; cbn [heap state]; apply deref_insert_eq)
  end.
  done.
Qed.

(** X3.  [setAspectRatio] and [setImageSize] store their arguments and
    change nothing of the controller's state: [getState],
    [getOriginalState] and the camera position are as before. *)
Theorem image_setters_keep_state (toNum : string -> num) (this : CameraRig)
    (ratio width height : num) :
  (aspectRatio (setAspectRatio toNum ratio this) = ratio /\
   imageWidth (setAspectRatio toNum ratio this) = imageWidth this /\
   imageHeight (setAspectRatio toNum ratio this) = imageHeight this /\
   getState (setAspectRatio toNum ratio this) = getState this /\
   getOriginalState (setAspectRatio toNum ratio this) = getOriginalState this /\
   cameraArm_position (objects (setAspectRatio toNum ratio this)) =
     cameraArm_position (objects this)) /\
  (aspectRatio (setImageSize toNum width height this) = aspectRatio this /\
   imageWidth (setImageSize toNum width height this) = width /\
   imageHeight (setImageSize toNum width height this) = height /\
   getState (setImageSize toNum width height this) = getState this /\
   getOriginalState (setImageSize toNum width height this) = getOriginalState this /\
   cameraArm_position (objects (setImageSize toNum width height this)) =
     cameraArm_position (objects this)).
Proof.
  split.
  - unfold setAspectRatio.
    match goal with |- context [updateViewportFrame toNum ?r] =>
      pose proof (updateViewportFrame_controller toNum r) as Hctl;
      pose proof (updateViewportFrame_cameraArm toNum r) as Harm
    end.
    rewrite (same_controller_getState _ _ Hctl),
      (same_controller_getOriginalState _ _ Hctl), Harm.
    destruct Hctl as (_&_&_&_&_& -> & -> & ->). done.
  - unfold setImageSize.
    match goal with |- context [updateViewportFrame toNum ?r] =>
      pose proof (updateViewportFrame_controller toNum r) as Hctl;
      pose proof (updateViewportFrame_cameraArm toNum r) as Harm
    end.
    rewrite (same_controller_getState _ _ Hctl),
      (same_controller_getOriginalState _ _ Hctl), Harm.
    destruct Hctl as (_&_&_&_&_& -> & -> & ->). done.
Qed.

(** X4.  Whatever calls were made since [setInitialState], right after
    [resetToOriginal] the snapshot [getState] returns is the snapshot
    [getOriginalState] returns, tags included, and it is the original
    snapshot of the initial rig. *)
Theorem reset_snapshots_agree (toNum : string -> num) (cameraInfo : obj)
    (this : CameraRig) (cs : list Call) :
  let initial := setInitialState toNum cameraInfo this in
  let back := resetToOriginal toNum (calls toNum initial cs) in
  getState back = getOriginalState back /\
  getOriginalState back = getOriginalState initial.
Proof.
  intros initial back.
  destruct (calls_separate toNum cs initial (setInitialState_separate toNum cameraInfo this))
    as (Hsep & Ho & Ht & Ha).
  destruct (call_separate toNum _ CallResetToOriginal Hsep) as (_ & Ho').
  destruct (call_tags toNum (calls toNum initial cs) CallResetToOriginal) as (Ht' & Ha').
  cbn [call] in Ho', Ht', Ha'. fold back in Ho', Ht', Ha'.
  assert (this_state back = this_originalState (calls toNum initial cs)) as Hst
    by apply resetToOriginal_this_state.
  unfold getState, getOriginalState.
  rewrite Hst, Ho', Ht', Ha', Ho, Ht, Ha. done.
Qed.

(** X5.  Two updates in a row leave the state that one update with the
    merged partial leaves, the later partial winning where both name a
    property. *)
Theorem updateState_twice (toNum : string -> num) (this : CameraRig)
    (first second : obj) :
  getState (updateState toNum second (updateState toNum first this)) =
  getState (updateState toNum (second ∪ first) this).
Proof.
  unfold getState. rewrite !updateState_this_state.
  destruct (call_tags toNum (updateState toNum first this) (CallUpdateState second))
    as (Ht2 & Ha2).
  destruct (call_tags toNum this (CallUpdateState first)) as (Ht1 & Ha1).
  destruct (call_tags toNum this (CallUpdateState (second ∪ first))) as (Ht & Ha).
  cbn [call] in *. rewrite Ht2, Ha2, Ht1, Ha1, Ht, Ha.
  by rewrite (assoc_L (∪)).
Qed.

(** ** More on the frame *)

(** X8.  When the frame is produced (the test of the source finds the
    camera at least 0.1 from the plane, at the finite z [camZ]), the plane
    is set 0.01 off the image plane on the side the camera is on and
    turned by pi exactly when the camera is behind the image; the five
    points of the frame get the same z, in the single precision of their
    buffer. *)
Theorem frame_on_camera_side (toNum : string -> num) (this : CameraRig)
    (camZ : R) :
  THREE.z (cameraPosition toNum this) = Fin camZ ->
  nlt (Math.abs (THREE.z (cameraPosition toNum this))) (Fin (1 / 10)) = false ->
  length (viewportFrame_positions (objects this)) = 15%nat ->
  let after := objects (updateViewportFrame toNum this) in
  let frameZ := if decide (0 < camZ) then Fin (1 / 100) else Fin (- (1 / 100)) in
  camZ <> 0 /\
  THREE.z (viewportPlane_position after) = frameZ /\
  viewportPlane_rotation_y after = (if decide (0 < camZ) then Fin 0 else Math.PI) /\
  forall point : nat, (point < 5)%nat ->
    array_get (viewportFrame_positions after) (3 * point + 2) = Math.fround frameZ.
Proof.
  intros Hz Hbranch Hlen after frameZ.
  assert (camZ <> 0) as Hnz.
  { intros ->. rewrite Hz in Hbranch. cbn [Math.abs nlt] in Hbranch.
    apply bool_decide_eq_false_1 in Hbranch. rewrite Rabs_R0 in Hbranch. lra. }
  assert (viewportPlane_rotation_y after =
          if ngt (THREE.z (cameraPosition toNum this)) (Fin 0) then Fin 0 else Math.PI)
    as Hrot.
  { subst after. unfold updateViewportFrame. rewrite Hbranch.
    by destruct (viewCenter toNum this). }
  destruct (updateViewportFrame_far toNum this Hbranch) as (_ & _ & _ & Hposn).
  pose proof (updateViewportFrame_corners toNum this Hbranch Hlen) as Hcorners.
  cbv zeta in Hcorners. fold after in Hposn, Hcorners.
  assert (THREE.z (viewportPlane_position after) = frameZ) as Hframe.
  { rewrite Hposn, Hz. cbn [THREE.z ngt nlt]. subst frameZ.
    destruct (decide (0 < camZ)).
    - by rewrite bool_decide_eq_true_2.
    - by rewrite bool_decide_eq_false_2. }
  split; [done|]. split; [done|]. split.
  - rewrite Hrot, Hz. cbn [ngt nlt].
    destruct (decide (0 < camZ)).
    + by rewrite bool_decide_eq_true_2.
    + by rewrite bool_decide_eq_false_2.
  - intros point Hpoint. rewrite Hcorners, Hframe.
    destruct point as [|[|[|[|[|point]]]]]; [reflexivity..|lia].
Qed.

Lemma frame_on_camera_side_witness :
  array_get (viewportFrame_positions
               (objects (updateViewportFrame (fun _ => NaN) constructor))) 2 =
  Math.fround (Fin (1 / 100)).
Proof.
  assert (THREE.z (cameraPosition (fun _ => NaN) constructor) =
          Fin (3 * cos (0 * (PI / 180)) * cos (0 * (PI / 180)))) as Hz.
  { by rewrite (cameraPosition_Fin (fun _ => NaN) constructor 3 0 0) by reflexivity. }
  assert (3 * cos (0 * (PI / 180)) * cos (0 * (PI / 180)) = 3) as Hthree.
  { replace (0 * (PI / 180)) with 0 by lra. rewrite cos_0. lra. }
  rewrite Hthree in Hz.
  assert (nlt (Math.abs (THREE.z (cameraPosition (fun _ => NaN) constructor)))
              (Fin (1 / 10)) = false) as Hfar.
  { rewrite Hz. cbn [Math.abs]. apply nlt_Fin_false. rewrite Rabs_pos_eq; lra. }
  destruct (frame_on_camera_side (fun _ => NaN) constructor 3 Hz Hfar eq_refl)
    as (_ & _ & _ & Hpoints).
  assert (0 < 5)%nat as Hfirst by lia.
  pose proof (Hpoints 0%nat Hfirst) as Hpoint.
  change (3 * 0 + 2)%nat with 2%nat in Hpoint. rewrite Hpoint.
  destruct (decide (0 < 3)) as [|Hno]; [reflexivity|]. exfalso. apply Hno. lra.
Defined.

(** The loop of [updateFrustumLines] on a buffer of 24 numbers. *)
Lemma frustum_buffer (cam : THREE.Vector3) (framePos l : list num) :
  length l = 24%nat ->
  foldl (frustumLine cam framePos) l (seq 0 4) =
    map Math.fround
      [ THREE.x cam; THREE.y cam; THREE.z cam;
        array_get framePos 0; array_get framePos 1; array_get framePos 2;
        THREE.x cam; THREE.y cam; THREE.z cam;
        array_get framePos 3; array_get framePos 4; array_get framePos 5;
        THREE.x cam; THREE.y cam; THREE.z cam;
        array_get framePos 6; array_get framePos 7; array_get framePos 8;
        THREE.x cam; THREE.y cam; THREE.z cam;
        array_get framePos 9; array_get framePos 10; array_get framePos 11 ].
Proof.
  intros Hl.
  do 24 (destruct l as [|? l]; [done|]).
  by destruct l.
Qed.

(** X9.  After a recomputation the frustum buffer (24 numbers, as the
    constructor allocates it) holds four segments, each from the camera
    position to one of the first four points read from the buffer of the
    viewport frame as it then stands, every coordinate stored in the single
    precision of the buffer. *)
Theorem frustum_lines_join_camera_and_corners (toNum : string -> num)
    (this : CameraRig) :
  length (frustumLines_positions (objects this)) = 24%nat ->
  let after := objects (updatePosition toNum this) in
  let cam := cameraPosition toNum this in
  let frame := viewportFrame_positions after in
  frustumLines_positions after =
    map Math.fround
      [ THREE.x cam; THREE.y cam; THREE.z cam;
        array_get frame 0; array_get frame 1; array_get frame 2;
        THREE.x cam; THREE.y cam; THREE.z cam;
        array_get frame 3; array_get frame 4; array_get frame 5;
        THREE.x cam; THREE.y cam; THREE.z cam;
        array_get frame 6; array_get frame 7; array_get frame 8;
        THREE.x cam; THREE.y cam; THREE.z cam;
        array_get frame 9; array_get frame 10; array_get frame 11 ].
Proof.
  intros Hlen after cam frame. subst after cam frame.
  unfold updatePosition, updateFrustumLines.
  cbn [objects with_objects frustumLines_positions viewportFrame_positions].
  match goal with |- context [updateViewportFrame toNum ?r] => set (moved := r) end.
  assert (cameraPosition toNum (updateViewportFrame toNum moved) =
          cameraPosition toNum this) as ->.
  { apply cameraPosition_state.
    by rewrite (same_controller_state _ _ (updateViewportFrame_controller toNum moved)). }
  apply frustum_buffer.
  assert (frustumLines_positions (objects (updateViewportFrame toNum moved)) =
          frustumLines_positions (objects this)) as ->; [|done].
  unfold updateViewportFrame. destruct (nlt _ _); [done|].
  by destruct (viewCenter toNum moved).
Qed.

Lemma frustum_lines_join_camera_and_corners_witness :
  array_get (frustumLines_positions
               (objects (updatePosition (fun _ => NaN) constructor))) 2 =
  Math.fround (THREE.z (cameraPosition (fun _ => NaN) constructor)).
Proof.
  rewrite (frustum_lines_join_camera_and_corners (fun _ => NaN) constructor eq_refl).
  reflexivity.
Defined.

(** ** Recomputing twice *)


Section Idempotent.

Variable toNum : string -> num.






End Idempotent.

(** ** The cleaning of the response text *)

Lemma prefix_backtick (pattern s : string) :
  starts_with_backtick s = false ->
  String.prefix (String backtick pattern) s = false.
Proof.
  destruct s as [|c rest]; [done|]. cbn [starts_with_backtick String.prefix].
  intros Hc. destruct (ascii_dec backtick c) as [<-|]; [|done].
  by rewrite Ascii.eqb_refl in Hc.
Qed.

Lemma fence_length_plain (c : ascii) (rest : string) :
  Ascii.eqb c backtick = false ->
  starts_with_backtick rest = false ->
  fence_length (String c rest) = 0%nat.
Proof.
  intros Hc Hrest. unfold fence_length.
  change (String.append "```json" (String newline EmptyString))
    with (String backtick (String.append "``json" (String newline EmptyString))).
  change "```json"%string with (String backtick "``json").
  change "```"%string with (String backtick "``").
  rewrite !(prefix_backtick _ (String c rest)) by done.
  cbn [String.prefix]. destruct (ascii_dec newline c); [|done].
  by rewrite prefix_backtick.
Qed.

Lemma starts_with_backtick_append (a r : string) :
  no_backtick a = true -> starts_with_backtick r = false ->
  starts_with_backtick (a +:+ r) = false.
Proof.
  destruct a as [|c a]; [done|].
  change (String c a +:+ r) with (String c (a +:+ r)).
  cbn [starts_with_backtick no_backtick]. intros Ha _.
  apply andb_true_iff in Ha as [Hc _]. by apply negb_true_iff in Hc.
Qed.

(** Text without backticks is copied as it is, up to a rest that does not
    begin with a backtick. *)
Lemma replace_fences_plain (a r : string) :
  no_backtick a = true ->
  starts_with_backtick r = false ->
  replace_fences 0 (a +:+ r) = a +:+ replace_fences 0 r.
Proof.
  intros Ha Hr. induction a as [|c a IH]; [done|].
  cbn [no_backtick] in Ha. apply andb_true_iff in Ha as [Hc Ha].
  apply negb_true_iff in Hc.
  change (String c a +:+ r) with (String c (a +:+ r)).
  change (String c a +:+ replace_fences 0 r)
    with (String c (a +:+ replace_fences 0 r)).
  cbn [replace_fences].
  rewrite fence_length_plain by (try done; by apply starts_with_backtick_append).
  by rewrite IH.
Qed.

Lemma append_empty (a : string) : a +:+ EmptyString = a.
Proof.
  induction a as [|c a IH]; [done|].
  change (String c a +:+ EmptyString) with (String c (a +:+ EmptyString)).
  by rewrite IH.
Qed.


Lemma prefix_empty (s : string) : String.prefix EmptyString s = true.
Proof. by destruct s. Qed.

(** The opening fence with its line break is dropped. *)
Lemma replace_fences_opening (rest : string) :
  replace_fences 0 ("```json" +:+ String newline rest) = replace_fences 0 rest.
Proof.
  change ("```json" +:+ String newline rest)
    with (String backtick (String backtick (String backtick
            (String "j" (String "s" (String "o" (String "n"
               (String newline rest)))))))).
  cbn [replace_fences].
  assert (fence_length
            (String backtick (String backtick (String backtick
               (String "j" (String "s" (String "o" (String "n"
                  (String newline rest)))))))) = 8%nat) as ->.
  { unfold fence_length.
    change (String.append "```json" (String newline EmptyString))
      with (String backtick (String backtick (String backtick
              (String "j" (String "s" (String "o" (String "n"
                 (String newline EmptyString)))))))).
    cbn [String.prefix]. by rewrite prefix_empty. }
  done.
Qed.

(** X11.  Cleaning leaves a text without backticks as it is, and turns such
    a text fenced as a json code block, each fence on a line of its own,
    into the text itself. *)
Theorem replace_fences_extracts_body (body : string) :
  no_backtick body = true ->
  replace_fences 0 body = body /\
  replace_fences 0
    ("```json" +:+ String newline (body +:+ String newline "```")) = body.
Proof.
  intros Hbody. split.
  - rewrite <- (append_empty body) at 1.
    rewrite replace_fences_plain by done. apply append_empty.
  - rewrite replace_fences_opening.
    rewrite replace_fences_plain by done.
    change (replace_fences 0 (String newline "```")) with EmptyString.
    apply append_empty.
Qed.

Lemma replace_fences_extracts_body_witness :
  replace_fences 0
    ("```json" +:+ String newline ("{ }" +:+ String newline "```")) = "{ }"%string.
Proof.
  exact (proj2 (replace_fences_extracts_body "{ }" eq_refl)).
Defined.

(** X12.  When the opening fence comes after a line break (at the very
    start of the text or after other text), the pattern takes the line break
    and the three backticks and leaves the word json in the text: what is
    cleaned is the text before, then json, then the text after (both
    without backticks). *)
Theorem replace_fences_after_newline (before after : string) :
  no_backtick before = true ->
  no_backtick after = true ->
  replace_fences 0 (before +:+ String newline ("```json" +:+ after)) =
  before +:+ ("json" +:+ after).
Proof.
  intros Hbefore Hafter.
  rewrite replace_fences_plain by done. f_equal.
  change (replace_fences 0 (String newline ("```json" +:+ after)))
    with (replace_fences 0 ("json" +:+ after)).
  rewrite <- (append_empty ("json" +:+ after)) at 1.
  rewrite replace_fences_plain; [apply append_empty| |done].
  change ("json" +:+ after) with (String "j" (String "s" (String "o" (String "n" after)))).
  cbn [no_backtick]. by rewrite Hafter.
Qed.

Lemma replace_fences_after_newline_witness :
  replace_fences 0
    (EmptyString +:+ String newline ("```json" +:+ String newline "{ }")) =
  EmptyString +:+ ("json" +:+ String newline "{ }").
Proof.
  apply (replace_fences_after_newline EmptyString (String newline "{ }"));
    reflexivity.
Defined.

(** ** More on the image analysis *)

(** X13.  Without a configured key (the stored key is [null], empty or
    otherwise falsy) [analyzeImage], [generatePositionPrompt] and
    [generateMovementPrompt] all throw the same configuration error, whatever
    the image, the states and the answers the service would give: the
    service is not consulted and no default record is returned. *)
Theorem unconfigured_key_throws (key : jsval)
    (trim : string -> string) (JSON_parse : string -> outcome parsed)
    (match_data_url : string -> option (string * string))
    (toFixed : num -> nat -> string) (NumberToString : num -> string)
    (analysis : string -> string -> outcome (option string))
    (generateContent : string -> outcome (option string))
    (imageBase64 : string) (cameraState fromState toState : obj) :
  truthy key = false ->
  let configuration_error :=
    {| message := VStr "API key not configured. Please enter your Gemini API key." |} in
  analyzeImage trim JSON_parse match_data_url (Return key) analysis imageBase64 =
    Throw configuration_error /\
  generatePositionPrompt toFixed NumberToString (Return key) generateContent cameraState =
    Throw configuration_error /\
  generateMovementPrompt toFixed (Return key) generateContent fromState toState =
    Throw configuration_error.
Proof.
  intros Hkey configuration_error.
  unfold analyzeImage, generatePositionPrompt, generateMovementPrompt, getAIClient.
  rewrite Hkey. done.
Qed.

Lemma unconfigured_key_throws_witness :
  analyzeImage (fun s => s) (fun _ => Return (ParsedOther VNull))
    (fun _ => Some ("image/png"%string, "AAAA"%string)) (Return VNull)
    (fun _ _ => Return (Some "{}"%string)) "data:image/png;base64,AAAA" =
  Throw {| message := VStr "API key not configured. Please enter your Gemini API key." |}.
Proof.
  exact (proj1 (unconfigured_key_throws VNull (fun s => s)
    (fun _ => Return (ParsedOther VNull))
    (fun _ => Some ("image/png"%string, "AAAA"%string))
    (fun _ _ => EmptyString) (fun _ => EmptyString)
    (fun _ _ => Return (Some "{}"%string)) (fun _ => Return None)
    "data:image/png;base64,AAAA" ∅ ∅ ∅ eq_refl)).
Defined.

(** X14.  With a configured key and a data URL, a failure of the call to the
    service itself (a network failure, say) is never thrown to the caller
    unless its message contains "API key": when the message is a string
    without it, or is missing, [analyzeImage] returns the default record. *)
Theorem analyzeImage_call_failure_defaults
    (trim : string -> string) (JSON_parse : string -> outcome parsed)
    (match_data_url : string -> option (string * string))
    (apiKey : outcome jsval)
    (generateContent : string -> string -> outcome (option string))
    (imageBase64 mimeType base64Data : string) (e : Error) :
  getAIClient apiKey = Return tt ->
  match_data_url imageBase64 = Some (mimeType, base64Data) ->
  generateContent mimeType base64Data = Throw e ->
  match message e with
  | VStr m => includes "API key" m = false
  | VUndefined | VNull => True
  | VBool _ | VNum _ => False
  end ->
  analyzeImage trim JSON_parse match_data_url apiKey generateContent imageBase64 =
    Return (ParsedObject default_analysis).
Proof.
  intros Hclient Hmatch Hcall Hmsg. unfold analyzeImage, analyze_attempt.
  rewrite Hclient, Hmatch, Hcall. unfold message_includes.
  destruct (message e) as [| | | |m]; try done. by rewrite Hmsg.
Qed.

Lemma analyzeImage_call_failure_defaults_witness :
  analyzeImage (fun s => s) (fun _ => Return (ParsedOther VNull))
    (fun _ => Some ("image/png"%string, "AAAA"%string)) (Return (VStr "key"))
    (fun _ _ => Throw {| message := VStr "Failed to fetch" |})
    "data:image/png;base64,AAAA" =
  Return (ParsedObject default_analysis).
Proof.
  apply (analyzeImage_call_failure_defaults (fun s => s)
    (fun _ => Return (ParsedOther VNull))
    (fun _ => Some ("image/png"%string, "AAAA"%string)) (Return (VStr "key"))
    (fun _ _ => Throw {| message := VStr "Failed to fetch" |})
    "data:image/png;base64,AAAA" "image/png" "AAAA"
    {| message := VStr "Failed to fetch" |}); reflexivity.
Defined.

(** X15.  With a configured key and a data URL, when the service answers
    with a json code block (each fence on a line of its own, no backtick in
    between), [analyzeImage] returns the value [JSON.parse] gives for the
    trimmed text between the fences: the parsed value is passed on as it is,
    no default is filled in. *)
Theorem analyzeImage_fenced_response
    (trim : string -> string) (JSON_parse : string -> outcome parsed)
    (match_data_url : string -> option (string * string))
    (apiKey : outcome jsval)
    (generateContent : string -> string -> outcome (option string))
    (imageBase64 mimeType base64Data body : string) (result : parsed) :
  getAIClient apiKey = Return tt ->
  match_data_url imageBase64 = Some (mimeType, base64Data) ->
  no_backtick body = true ->
  generateContent mimeType base64Data =
    Return (Some ("```json" +:+ String newline (body +:+ String newline "```"))) ->
  JSON_parse (trim body) = Return result ->
  analyzeImage trim JSON_parse match_data_url apiKey generateContent imageBase64 =
    Return result.
Proof.
  intros Hclient Hmatch Hbody Hcall Hparse. unfold analyzeImage, analyze_attempt.
  rewrite Hclient, Hmatch, Hcall. cbn [default from_option].
  unfold Datatypes.id.
  rewrite replace_fences_opening, replace_fences_plain by done.
  change (replace_fences 0 (String newline "```")) with EmptyString.
  by rewrite append_empty, Hparse.
Qed.

Lemma analyzeImage_fenced_response_witness :
  analyzeImage (fun s => s)
    (fun s => if String.eqb s "{ }" then Return (ParsedObject ∅)
              else Throw {| message := VStr "Unexpected token" |})
    (fun _ => Some ("image/png"%string, "AAAA"%string)) (Return (VStr "key"))
    (fun _ _ => Return (Some ("```json" +:+ String newline ("{ }" +:+ String newline "```"))))
    "data:image/png;base64,AAAA" =
  Return (ParsedObject ∅).
Proof.
  apply (analyzeImage_fenced_response (fun s => s)
    (fun s => if String.eqb s "{ }" then Return (ParsedObject ∅)
              else Throw {| message := VStr "Unexpected token" |})
    (fun _ => Some ("image/png"%string, "AAAA"%string)) (Return (VStr "key"))
    (fun _ _ => Return (Some ("```json" +:+ String newline ("{ }" +:+ String newline "```"))))
    "data:image/png;base64,AAAA" "image/png" "AAAA" "{ }"); reflexivity.
Defined.

(** ** The stored key *)

(** X16.  What [getApiKey] resolves with is a truthy value or [null]: an
    empty or missing stored value, and a database that cannot be opened,
    all read as [null]. *)
Theorem getApiKey_key_or_null (envKey : jsval) (idb : IndexedDB) (v : jsval) :
  getApiKey envKey idb = Return v ->
  v = VNull \/ truthy v = true.
Proof.
  unfold getApiKey.
  destruct (truthy envKey && negb (strict_equal envKey (VStr "your_api_key_here")))
    eqn:Henv.
  - intros [= <-]. right. by apply andb_true_iff in Henv as [? _].
  - destruct (openDB idb); [|intros [= <-]; by left].
    unfold request. destruct (request_error idb); [done|].
    unfold mbind, outcome_mbind, outcome_bind, js_or.
    set (value := match settings idb !! "gemini_api_key" with
                  | Some record => get record "value"
                  | None => VUndefined
                  end).
    destruct (truthy value) eqn:Hv; intros [= <-]; [by right|by left].
Qed.

Lemma getApiKey_key_or_null_witness :
  getApiKey VUndefined
    {| open_error := None; request_error := None;
       settings := {[ "gemini_api_key" :=
         {[ "key" := VStr "gemini_api_key"; "value" := VStr EmptyString ]} ]} |}
    = Return VNull /\
  (VNull = VNull \/ truthy VNull = true).
Proof.
  split; [reflexivity|].
  apply (getApiKey_key_or_null VUndefined
           {| open_error := None; request_error := None;
              settings := {[ "gemini_api_key" :=
                {[ "key" := VStr "gemini_api_key"; "value" := VStr EmptyString ]} ]} |}
           VNull).
  reflexivity.
Defined.

(** X17.  A key that was saved is the key read back: when [saveApiKey]
    succeeds and the environment provides no usable key, [getApiKey] then
    resolves with the saved value if it is truthy and with [null] otherwise;
    whatever was stored before under the name is replaced. *)
Theorem saved_key_is_read_back (apiKey envKey : jsval) (idb idb' : IndexedDB) :
  saveApiKey apiKey idb = Return idb' ->
  truthy envKey && negb (strict_equal envKey (VStr "your_api_key_here")) = false ->
  getApiKey envKey idb' = Return (if truthy apiKey then apiKey else VNull).
Proof.
  unfold saveApiKey, getApiKey, mbind, outcome_mbind, outcome_bind, openDB, request.
  intros Hsave ->.
  destruct (open_error idb) eqn:Hopen; [done|].
  destruct (request_error idb) eqn:Hreq; [done|].
  injection Hsave as <-. cbn [open_error request_error settings with_settings].
  rewrite Hopen, Hreq. rewrite lookup_insert_eq. done.
Qed.

Lemma saved_key_is_read_back_witness :
  getApiKey VUndefined
    {| open_error := None; request_error := None;
       settings := <["gemini_api_key" :=
                       {[ "key" := VStr "gemini_api_key"; "value" := VStr "AIza" ]}]> ∅ |}
  = Return (VStr "AIza").
Proof.
  apply (saved_key_is_read_back (VStr "AIza") VUndefined
           {| open_error := None; request_error := None; settings := ∅ |});
    reflexivity.
Defined.

(** X18.  After [clearApiKey] succeeds, and without a usable key in the
    environment, [getApiKey] resolves with [null]. *)
Theorem cleared_key_is_null (envKey : jsval) (idb idb' : IndexedDB) :
  clearApiKey idb = Return idb' ->
  truthy envKey && negb (strict_equal envKey (VStr "your_api_key_here")) = false ->
  getApiKey envKey idb' = Return VNull.
Proof.
  unfold clearApiKey, getApiKey, mbind, outcome_mbind, outcome_bind, openDB, request.
  intros Hclear ->.
  destruct (open_error idb) eqn:Hopen; [done|].
  destruct (request_error idb) eqn:Hreq; [done|].
  injection Hclear as <-. cbn [open_error request_error settings with_settings].
  rewrite Hopen, Hreq. rewrite lookup_delete_eq. done.
Qed.

Lemma cleared_key_is_null_witness :
  getApiKey VUndefined
    {| open_error := None; request_error := None;
       settings := delete "gemini_api_key"
         {[ "gemini_api_key" :=
              {[ "key" := VStr "gemini_api_key"; "value" := VStr "AIza" ]} ]} |}
  = Return VNull.
Proof.
  apply (cleared_key_is_null VUndefined
           {| open_error := None; request_error := None;
              settings := {[ "gemini_api_key" :=
                {[ "key" := VStr "gemini_api_key"; "value" := VStr "AIza" ]} ]} |});
    reflexivity.
Defined.

(** X19.  A key from the environment wins over the store, which is then not
    even opened (here it could not be); the placeholder [your_api_key_here]
    counts as no key; and with no key in the environment and a database
    that cannot be opened, [getApiKey] gives [null] and the analysis reports
    that the key is not configured. *)
Theorem environment_key_first (envKey : jsval) (idb : IndexedDB) (e : Error)
    (trim : string -> string) (JSON_parse : string -> outcome parsed)
    (match_data_url : string -> option (string * string))
    (generateContent : string -> string -> outcome (option string))
    (imageBase64 : string) :
  truthy envKey = true ->
  strict_equal envKey (VStr "your_api_key_here") = false ->
  open_error idb = Some e ->
  getApiKey envKey idb = Return envKey /\
  getApiKey (VStr "your_api_key_here") idb = getApiKey VUndefined idb /\
  getApiKey VUndefined idb = Return VNull /\
  analyzeImage trim JSON_parse match_data_url (getApiKey VUndefined idb)
    generateContent imageBase64 =
    Throw {| message := VStr "API key not configured. Please enter your Gemini API key." |}.
Proof.
  intros Htruthy Hplaceholder Hopen.
  assert (getApiKey VUndefined idb = Return VNull) as Hnull
    by (unfold getApiKey, openDB; by rewrite Hopen).
  split; [unfold getApiKey; by rewrite Htruthy, Hplaceholder|].
  split; [done|]. split; [done|]. by rewrite Hnull.
Qed.

Lemma environment_key_first_witness :
  getApiKey (VStr "AIza")
    {| open_error := Some {| message := VStr "blocked" |}; request_error := None;
       settings := ∅ |} = Return (VStr "AIza").
Proof.
  exact (proj1 (environment_key_first (VStr "AIza")
    {| open_error := Some {| message := VStr "blocked" |}; request_error := None;
       settings := ∅ |} {| message := VStr "blocked" |}
    (fun s => s) (fun _ => Return (ParsedOther VNull)) (fun _ => None)
    (fun _ _ => Return None) EmptyString eq_refl eq_refl eq_refl)).
Defined.

(** ** Numeric states and the prompt requests *)

Lemma numeric_state_spec (o : obj) :
  numeric_state o = true <->
  (is_number (get o "distance") = true /\ is_number (get o "orbitH") = true /\
   is_number (get o "orbitV") = true /\ is_number (get o "pan") = true /\
   is_number (get o "tilt") = true).
Proof.
  unfold numeric_state, state_keys. cbn [forallb].
  rewrite !andb_true_iff. tauto.
Qed.

Lemma numeric_state_gets (a b : obj) :
  (forall key, In key state_keys -> get a key = get b key) ->
  numeric_state a = numeric_state b.
Proof.
  intros Hsame. unfold numeric_state, state_keys in *. cbn [forallb].
  rewrite !Hsame by (cbn; tauto). done.
Qed.

Lemma numeric_state_getState (this : CameraRig) :
  numeric_state (getState this) = numeric_state (this_state this) /\
  numeric_state (getOriginalState this) = numeric_state (this_originalState this).
Proof.
  split; apply numeric_state_gets; intros key Hkey;
    unfold getState, getOriginalState, get;
    cbn in Hkey;
    destruct Hkey as [<-|[<-|[<-|[<-|[<-|[]]]]]];
    by rewrite !lookup_insert_ne.
Qed.

Lemma is_number_js_or (v : jsval) (r : R) :
  is_number v || negb (truthy v) = true ->
  is_number (js_or v (VNum (Fin r))) = true.
Proof. unfold js_or. by destruct v as [| |[]|n|s], (truthy _) eqn:?. Qed.

Lemma numeric_state_union (newState o : obj) :
  numeric_partial newState = true -> numeric_state o = true ->
  numeric_state (newState ∪ o) = true.
Proof.
  unfold numeric_partial, numeric_state, state_keys. cbn [forallb].
  rewrite !andb_true_iff. unfold get. rewrite !lookup_union.
  intros (H1 & H2 & H3 & H4 & H5 & _) (G1 & G2 & G3 & G4 & G5 & _).
  repeat split;
    match goal with
    | |- context [newState !! ?k ∪ o !! ?k] =>
        destruct (newState !! k), (o !! k); done
    end.
Qed.

Section NumericRig.

Variable toNum : string -> num.

Lemma setInitialState_numeric (cameraInfo : obj) (this : CameraRig) :
  numeric_payload cameraInfo = true ->
  numeric_state (this_state (setInitialState toNum cameraInfo this)) = true.
Proof.
  unfold numeric_payload. cbn [forallb]. rewrite !andb_true_iff.
  intros (Hd & Hy & Hp & _).
  rewrite setInitialState_this_state.
  match goal with |- numeric_state ?m = true => set (built := m) end.
  assert (get built "distance" = js_or (get cameraInfo "distance") (VNum (Fin 3)))
    as Hbd by reflexivity.
  assert (get built "orbitH" = js_or (get cameraInfo "yaw") (VNum (Fin 0)))
    as Hbh by reflexivity.
  assert (get built "orbitV" = js_or (get cameraInfo "pitch") (VNum (Fin 0)))
    as Hbv by reflexivity.
  assert (get built "pan" = VNum (Fin 0)) as Hbp by reflexivity.
  assert (get built "tilt" = VNum (Fin 0)) as Hbt by reflexivity.
  apply numeric_state_spec. rewrite Hbd, Hbh, Hbv, Hbp, Hbt.
  repeat split; try done; by apply is_number_js_or.
Qed.

Lemma call_numeric (this : CameraRig) (c : Call) :
  separate this ->
  numeric_call c = true ->
  numeric_state (this_state this) = true ->
  numeric_state (this_originalState this) = true ->
  numeric_state (this_state (call toNum this c)) = true.
Proof.
  intros Hsep Hc Hst Ho. destruct c; cbn [call numeric_call] in *.
  - rewrite updateState_this_state. by apply numeric_state_union.
  - by rewrite resetToOriginal_this_state.
  - unfold setAspectRatio. controller_fields. done.
  - unfold setImageSize. controller_fields. done.
Qed.

Lemma calls_numeric (cs : list Call) (this : CameraRig) :
  separate this ->
  forallb numeric_call cs = true ->
  numeric_state (this_state this) = true ->
  numeric_state (this_originalState this) = true ->
  numeric_state (this_state (calls toNum this cs)) = true /\
  numeric_state (this_originalState (calls toNum this cs)) = true.
Proof.
  revert this. induction cs as [|c cs IH]; intros this Hsep Hcs Hst Ho; [done|].
  cbn [forallb] in Hcs. apply andb_true_iff in Hcs as [Hc Hcs].
  destruct (call_separate toNum this c Hsep) as [Hsep' Ho'].
  cbn [calls foldl]. apply IH; [done|done| |by rewrite Ho'].
  by apply call_numeric.
Qed.

End NumericRig.

(** X20.  If the analysis payload gives [distance], [yaw] and [pitch] as
    numbers (or as falsy values, or not at all) and every partial update
    gives numbers for the state properties it names, as the sliders do,
    then after any sequence of calls the five state properties are numbers,
    in the live state and in the original state, and so in the snapshots
    [getState] and [getOriginalState] return. *)
Theorem state_stays_numeric (toNum : string -> num) (cameraInfo : obj)
    (this : CameraRig) (cs : list Call) :
  numeric_payload cameraInfo = true ->
  forallb numeric_call cs = true ->
  let rig := calls toNum (setInitialState toNum cameraInfo this) cs in
  numeric_state (getState rig) = true /\
  numeric_state (getOriginalState rig) = true.
Proof.
  intros Hpayload Hcalls rig.
  destruct (numeric_state_getState rig) as [-> ->].
  apply calls_numeric; [apply setInitialState_separate|done| |].
  - by apply setInitialState_numeric.
  - rewrite setInitialState_this_originalState. by apply setInitialState_numeric.
Qed.

Lemma state_stays_numeric_witness :
  numeric_state
    (getState (calls (fun _ => NaN)
       (setInitialState (fun _ => NaN)
          {[ "distance" := VNum (Fin 4); "pitch" := VNull ]} constructor)
       [ CallUpdateState {[ "orbitH" := VNum (Fin 30) ]}; CallResetToOriginal ]))
  = true.
Proof.
  exact (proj1 (state_stays_numeric (fun _ => NaN)
    {[ "distance" := VNum (Fin 4); "pitch" := VNull ]} constructor
    [ CallUpdateState {[ "orbitH" := VNum (Fin 30) ]}; CallResetToOriginal ]
    eq_refl eq_refl)).
Defined.

Section PromptRequests.

Variable toFixed : num -> nat -> string.
Variable NumberToString : num -> string.

(** With a key and five numbers, a request sends one prompt and gives back
    what the service answers. *)
Lemma positionPrompt_numeric (key : jsval) (cameraState : obj) :
  truthy key = true ->
  numeric_state cameraState = true ->
  exists prompt : string,
    forall generateContent : string -> outcome (option string),
      generatePositionPrompt toFixed NumberToString (Return key) generateContent
        cameraState = response_text_or_empty (generateContent prompt).
Proof.
  intros Hkey Hnum. apply numeric_state_spec in Hnum as (Hd & Hh & Hv & Hp & Ht).
  unfold generatePositionPrompt, getAIClient. rewrite Hkey.
  destruct (get cameraState "distance"); try done.
  destruct (get cameraState "orbitH"); try done.
  destruct (get cameraState "orbitV"); try done.
  destruct (get cameraState "pan"); try done.
  destruct (get cameraState "tilt"); try done.
  eexists. intros generateContent.
  cbn [call_toFixed]. unfold mbind, outcome_mbind, outcome_bind, response_text_or_empty.
  reflexivity.
Qed.

Lemma movementPrompt_numeric (key : jsval) (fromState toState : obj) :
  truthy key = true ->
  numeric_state fromState = true ->
  numeric_state toState = true ->
  exists prompt : string,
    forall generateContent : string -> outcome (option string),
      generateMovementPrompt toFixed (Return key) generateContent fromState toState =
      response_text_or_empty (generateContent prompt).
Proof.
  intros Hkey Hfrom Hto.
  apply numeric_state_spec in Hfrom as (Hd & Hh & Hv & Hp & Ht).
  apply numeric_state_spec in Hto as (Hd' & Hh' & Hv' & Hp' & Ht').
  unfold generateMovementPrompt, getAIClient. rewrite Hkey.
  destruct (get fromState "distance"); try done.
  destruct (get fromState "orbitH"); try done.
  destruct (get fromState "orbitV"); try done.
  destruct (get fromState "pan"); try done.
  destruct (get fromState "tilt"); try done.
  destruct (get toState "distance"); try done.
  destruct (get toState "orbitH"); try done.
  destruct (get toState "orbitV"); try done.
  destruct (get toState "pan"); try done.
  destruct (get toState "tilt"); try done.
  eexists. intros generateContent.
  cbn [call_toFixed]. unfold mbind, outcome_mbind, outcome_bind, response_text_or_empty.
  reflexivity.
Qed.

(** A state property that is not a number makes the request throw before
    the service is reached. *)
Lemma positionPrompt_type_error (key : jsval) (cameraState : obj) :
  truthy key = true ->
  numeric_state cameraState = false ->
  exists e : Error,
    forall generateContent : string -> outcome (option string),
      generatePositionPrompt toFixed NumberToString (Return key) generateContent
        cameraState = Throw e.
Proof.
  intros Hkey Hnum.
  unfold numeric_state, state_keys in Hnum. cbn [forallb] in Hnum.
  unfold generatePositionPrompt, getAIClient. rewrite Hkey.
  destruct (get cameraState "distance"); try (eexists; intros; reflexivity).
  destruct (get cameraState "orbitH"); try (eexists; intros; reflexivity).
  destruct (get cameraState "orbitV"); try (eexists; intros; reflexivity).
  destruct (get cameraState "pan"); try (eexists; intros; reflexivity).
  destruct (get cameraState "tilt"); try (eexists; intros; reflexivity).
  done.
Qed.

End PromptRequests.

(** X21.  After an analysis whose [distance], [yaw] and [pitch] are numbers
    (or falsy, or missing) and any sequence of calls whose partial updates
    give numbers, and with a configured key, the two prompt requests made
    from the snapshots of the rig never fail on the state itself: each sends
    one prompt and returns the text the service answers (the empty string if
    the answer has none), or throws the error of the service as it is. *)
Theorem prompts_follow_service (toNum : string -> num)
    (toFixed : num -> nat -> string) (NumberToString : num -> string)
    (cameraInfo : obj) (this : CameraRig) (cs : list Call) (key : jsval) :
  numeric_payload cameraInfo = true ->
  forallb numeric_call cs = true ->
  truthy key = true ->
  let rig := calls toNum (setInitialState toNum cameraInfo this) cs in
  exists positionPrompt movementPrompt : string,
    forall generateContent : string -> outcome (option string),
      generatePositionPrompt toFixed NumberToString (Return key) generateContent
        (getState rig) = response_text_or_empty (generateContent positionPrompt) /\
      generateMovementPrompt toFixed (Return key) generateContent
        (getOriginalState rig) (getState rig) =
        response_text_or_empty (generateContent movementPrompt).
Proof.
  intros Hpayload Hcalls Hkey rig.
  assert (numeric_state (getState rig) = true /\
          numeric_state (getOriginalState rig) = true) as [Hst Ho].
  { destruct (numeric_state_getState rig) as [-> ->].
    apply calls_numeric; [apply setInitialState_separate|done| |].
    - by apply setInitialState_numeric.
    - rewrite setInitialState_this_originalState. by apply setInitialState_numeric. }
  destruct (positionPrompt_numeric toFixed NumberToString key _ Hkey Hst) as [p Hp].
  destruct (movementPrompt_numeric toFixed key _ _ Hkey Ho Hst) as [m Hm].
  exists p, m. intros generateContent. by rewrite Hp, Hm.
Qed.

Lemma prompts_follow_service_witness :
  exists positionPrompt : string,
    generatePositionPrompt (fun _ _ => "3.00"%string) (fun _ => "3"%string)
      (Return (VStr "key")) (fun _ => Return None)
      (getState (calls (fun _ => NaN)
         (setInitialState (fun _ => NaN) {[ "distance" := VNum (Fin 4) ]} constructor)
         [ CallUpdateState {[ "pan" := VNum (Fin 10) ]} ]))
    = response_text_or_empty
        ((fun _ : string => @Return (option string) None) positionPrompt).
Proof.
  assert (numeric_payload ({[ "distance" := VNum (Fin 4) ]} : obj) = true) as Hpayload
    by reflexivity.
  assert (forallb numeric_call [ CallUpdateState {[ "pan" := VNum (Fin 10) ]} ] = true)
    as Hcalls by reflexivity.
  destruct (prompts_follow_service (fun _ => NaN) (fun _ _ => "3.00"%string)
              (fun _ => "3"%string) {[ "distance" := VNum (Fin 4) ]} constructor
              [ CallUpdateState {[ "pan" := VNum (Fin 10) ]} ] (VStr "key")
              Hpayload Hcalls eq_refl) as (p & m & H).
  exists p. exact (proj1 (H (fun _ => Return None))).
Defined.

(** X22.  With a configured key, a snapshot in which one of the five state
    properties is not a number (a string, a boolean, [null] or [undefined])
    makes [generatePositionPrompt] throw the same error whatever the service
    would answer: the error comes from formatting the state, before any
    request is sent. *)
Theorem position_prompt_needs_numbers
    (toFixed : num -> nat -> string) (NumberToString : num -> string)
    (key : jsval) (cameraState : obj) :
  truthy key = true ->
  numeric_state cameraState = false ->
  exists e : Error,
    forall generateContent : string -> outcome (option string),
      generatePositionPrompt toFixed NumberToString (Return key) generateContent
        cameraState = Throw e.
Proof. apply positionPrompt_type_error. Qed.

Lemma position_prompt_needs_numbers_witness :
  exists e : Error,
    forall generateContent : string -> outcome (option string),
      generatePositionPrompt (fun _ _ => "3.00"%string) (fun _ => "3"%string)
        (Return (VStr "key")) generateContent
        {[ "distance" := VNum (Fin 3); "orbitH" := VStr "30" ]} = Throw e.
Proof.
  apply (position_prompt_needs_numbers (fun _ _ => "3.00"%string) (fun _ => "3"%string)
           (VStr "key") {[ "distance" := VNum (Fin 3); "orbitH" := VStr "30" ]});
    reflexivity.
Defined.

(** X23.  [setInitialState] with a record that gives [distance] as a
    non-empty string (a quoted number, say) puts that string in the state
    as it is, and the position prompt for the rig then throws before the
    service is reached: the default 3 replaces falsy values only. *)
Theorem string_distance_breaks_prompt (toNum : string -> num)
    (toFixed : num -> nat -> string) (NumberToString : num -> string)
    (cameraInfo : obj) (this : CameraRig) (s : string) (key : jsval) :
  cameraInfo !! "distance" = Some (VStr s) ->
  s <> EmptyString ->
  truthy key = true ->
  let rig := setInitialState toNum cameraInfo this in
  get (getState rig) "distance" = VStr s /\
  exists e : Error,
    forall generateContent : string -> outcome (option string),
      generatePositionPrompt toFixed NumberToString (Return key) generateContent
        (getState rig) = Throw e.
Proof.
  intros Hd Hs Hkey rig.
  assert (get (getState rig) "distance" = VStr s) as Hdist.
  { unfold getState, get. rewrite !lookup_insert_ne by done.
    subst rig. rewrite setInitialState_this_state, lookup_insert_eq.
    cbn [default from_option]. unfold Datatypes.id.
    rewrite (get_lookup _ _ _ Hd). apply js_or_truthy.
    cbn. by apply bool_decide_eq_true_2. }
  split; [done|].
  apply positionPrompt_type_error; [done|].
  unfold numeric_state, state_keys. cbn [forallb]. by rewrite Hdist.
Qed.

Lemma string_distance_breaks_prompt_witness :
  get (getState (setInitialState (fun _ => NaN)
                   {[ "distance" := VStr "3" ]} constructor)) "distance" = VStr "3".
Proof.
  refine (proj1 (string_distance_breaks_prompt (fun _ => NaN)
    (fun _ _ => EmptyString) (fun _ => EmptyString)
    {[ "distance" := VStr "3" ]} constructor "3" (VStr "key") eq_refl _ eq_refl)).
  discriminate.
Defined.

(** ** Loading an image *)

Lemma setAspectRatio_fields (toNum : string -> num) (ratio : num) (this : CameraRig) :
  aspectRatio (setAspectRatio toNum ratio this) = ratio /\
  imageWidth (setAspectRatio toNum ratio this) = imageWidth this /\
  imageHeight (setAspectRatio toNum ratio this) = imageHeight this /\
  getState (setAspectRatio toNum ratio this) = getState this /\
  getOriginalState (setAspectRatio toNum ratio this) = getOriginalState this.
Proof.
  unfold setAspectRatio.
  match goal with |- context [updateViewportFrame toNum ?r] =>
    pose proof (updateViewportFrame_controller toNum r) as Hctl end.
  rewrite (same_controller_getState _ _ Hctl),
    (same_controller_getOriginalState _ _ Hctl).
  destruct Hctl as (_&_&_&_&_& -> & -> & ->). done.
Qed.

Lemma setImageSize_fields (toNum : string -> num) (width height : num)
    (this : CameraRig) :
  aspectRatio (setImageSize toNum width height this) = aspectRatio this /\
  imageWidth (setImageSize toNum width height this) = width /\
  imageHeight (setImageSize toNum width height this) = height /\
  getState (setImageSize toNum width height this) = getState this /\
  getOriginalState (setImageSize toNum width height this) = getOriginalState this.
Proof.
  unfold setImageSize.
  match goal with |- context [updateViewportFrame toNum ?r] =>
    pose proof (updateViewportFrame_controller toNum r) as Hctl end.
  rewrite (same_controller_getState _ _ Hctl),
    (same_controller_getOriginalState _ _ Hctl).
  destruct Hctl as (_&_&_&_&_& -> & -> & ->). done.
Qed.

(** X24.  When an image of width w and height h (h not 0) has loaded, the
    plane is 2 high and 2 w / h wide, and that is what the rig is given:
    its aspect ratio is w / h, its image height 2 and its image width
    2 w / h, the bound of the frame centre; the camera state is not
    touched.  A plane without an image, before any load or after [dispose],
    reports the size 2 by 2. *)
Theorem image_load_sets_descriptor (toNum : string -> num) (w h : R)
    (plane : ImagePlane) (rig : CameraRig) :
  h <> 0 ->
  let loaded := handleImageFile_loaded toNum (Fin w) (Fin h) (plane, rig) in
  ImagePlane_getSize loaded.1 = (Fin (2 * (w / h)), Fin 2) /\
  aspectRatio loaded.2 = Fin (w / h) /\
  imageWidth loaded.2 = Fin (2 * (w / h)) /\
  imageHeight loaded.2 = Fin 2 /\
  getState loaded.2 = getState rig /\
  getOriginalState loaded.2 = getOriginalState rig /\
  ImagePlane_getSize (ImagePlane_dispose loaded.1) = (Fin 2, Fin 2) /\
  ImagePlane_getSize ImagePlane_constructor = (Fin 2, Fin 2).
Proof.
  intros Hh loaded. subst loaded.
  unfold handleImageFile_loaded, loadImage.
  cbn [fst snd plane_aspectRatio plane_mesh ImagePlane_getSize ImagePlane_dispose].
  rewrite (ndiv_Fin w h Hh). cbn [nmul].
  match goal with |- context [setImageSize toNum ?a ?b ?r] =>
    destruct (setImageSize_fields toNum a b r) as (-> & -> & -> & -> & ->) end.
  destruct (setAspectRatio_fields toNum (Fin (w / h)) rig) as (-> & _ & _ & -> & ->).
  done.
Qed.

Lemma image_load_sets_descriptor_witness :
  imageWidth (handleImageFile_loaded (fun _ => NaN) (Fin 1920) (Fin 1080)
                (ImagePlane_constructor, constructor)).2 = Fin (2 * (1920 / 1080)).
Proof.
  refine (proj1 (proj2 (proj2 (image_load_sets_descriptor (fun _ => NaN) 1920 1080
                  ImagePlane_constructor constructor _)))).
  lra.
Defined.

(** ** The objects of the scene *)

Lemma elem_of_scene_remove (object x : Object3D) (children : list Object3D) :
  NoDup children ->
  x ∈ scene_remove object children <-> x ∈ children /\ x <> object.
Proof.
  induction children as [|child rest IH]; intros Hnodup; cbn [scene_remove].
  - set_solver.
  - apply NoDup_cons in Hnodup as [Hfresh Hnodup].
    destruct (decide (child = object)) as [->|Hne].
    + split; [|set_solver]. intros Hx. split; [set_solver|]. by intros ->.
    + rewrite elem_of_cons, IH by done. set_solver.
Qed.

Lemma NoDup_scene_remove (object : Object3D) (children : list Object3D) :
  NoDup children -> NoDup (scene_remove object children).
Proof.
  induction children as [|child rest IH]; intros Hnodup; cbn [scene_remove]; [done|].
  apply NoDup_cons in Hnodup as [Hfresh Hnodup].
  destruct (decide (child = object)); [done|].
  apply NoDup_cons. split; [|by apply IH].
  rewrite elem_of_scene_remove by done. tauto.
Qed.

Lemma elem_of_scene_add (object x : Object3D) (children : list Object3D) :
  NoDup children ->
  x ∈ scene_add object children <-> x = object \/ x ∈ children.
Proof.
  intros Hnodup. unfold scene_add.
  rewrite elem_of_app, elem_of_scene_remove, list_elem_of_singleton by done.
  destruct (decide (x = object)); tauto.
Qed.

Lemma NoDup_scene_add (object : Object3D) (children : list Object3D) :
  NoDup children -> NoDup (scene_add object children).
Proof.
  intros Hnodup. unfold scene_add. apply NoDup_app.
  split; [by apply NoDup_scene_remove|]. split; [|apply NoDup_singleton].
  intros x Hx Hx'. apply elem_of_scene_remove in Hx; [|done].
  apply list_elem_of_singleton in Hx'. tauto.
Qed.

Lemma SceneManager_remove_registered (key : string) (this : SceneManager) :
  registered this -> registered (SceneManager_remove key this).
Proof.
  intros (Hnodup & Hin & Hinj). unfold SceneManager_remove.
  destruct (manager_objects this !! key) as [object|] eqn:Hkey; [|done].
  split; [|split]; cbn [manager_objects scene_children].
  - by apply NoDup_scene_remove.
  - intros key' object' Hlook.
    apply lookup_delete_Some in Hlook as [Hne Hlook].
    apply elem_of_scene_remove; [done|]. split; [by eapply Hin|].
    intros ->. apply Hne. by eapply Hinj.
  - intros key1 key2 object' H1 H2.
    apply lookup_delete_Some in H1 as [_ H1].
    apply lookup_delete_Some in H2 as [_ H2]. by eapply Hinj.
Qed.

(** X25.  In a manager whose named objects are all in the scene,
    [remove(key)] takes the object of that name out of the map and out of
    the scene, leaves the other names as they are and keeps every other
    named object in the scene; for a name that is not in the map it does
    nothing. *)
Theorem SceneManager_remove_unregisters (key : string) (this : SceneManager) :
  registered this ->
  let after := SceneManager_remove key this in
  SceneManager_get key after = None /\
  registered after /\
  match manager_objects this !! key with
  | Some object => object ∉ scene_children after
  | None => after = this
  end /\
  forall key', key' <> key -> SceneManager_get key' after = SceneManager_get key' this.
Proof.
  intros Hreg after. pose proof Hreg as (Hnodup & Hin & Hinj).
  split; [|split; [by apply SceneManager_remove_registered|split]].
  - subst after. unfold SceneManager_get, SceneManager_remove.
    destruct (manager_objects this !! key) eqn:Hkey; [|done].
    apply lookup_delete_eq.
  - subst after. unfold SceneManager_remove.
    destruct (manager_objects this !! key) as [object|] eqn:Hkey; [|done].
    cbn [scene_children]. rewrite elem_of_scene_remove by done. tauto.
  - intros key' Hne. subst after. unfold SceneManager_get, SceneManager_remove.
    destruct (manager_objects this !! key) eqn:Hkey; [|done].
    cbn [manager_objects]. by rewrite lookup_delete_ne.
Qed.

Lemma SceneManager_remove_unregisters_witness :
  SceneManager_get "cameraRig"
    (SceneManager_remove "cameraRig"
       {| manager_objects := {[ "cameraRig" := 7%nat; "grid" := 1%nat ]};
          scene_children := [1%nat; 7%nat] |}) = None.
Proof.
  refine (proj1 (SceneManager_remove_unregisters "cameraRig"
    {| manager_objects := {[ "cameraRig" := 7%nat; "grid" := 1%nat ]};
       scene_children := [1%nat; 7%nat] |} _)).
  split; [|split]; cbn [manager_objects scene_children].
  - apply NoDup_cons. split; [set_solver|]. apply NoDup_singleton.
  - intros key object Hlook.
    apply lookup_insert_Some in Hlook as [[_ <-]|[_ Hlook]]; [set_solver|].
    apply lookup_singleton_Some in Hlook as [_ <-]. set_solver.
  - intros key key' object H1 H2.
    apply lookup_insert_Some in H1 as [[<- <-]|[Hn1 H1]];
      apply lookup_insert_Some in H2 as [[<- H2]|[Hn2 H2]]; try done.
    + apply lookup_singleton_Some in H2 as [_ ?]. congruence.
    + apply lookup_singleton_Some in H1 as [_ ?]. congruence.
    + apply lookup_singleton_Some in H1 as [<- _].
      apply lookup_singleton_Some in H2 as [<- _]. done.
Defined.

(** X26.  In such a manager, [add(key, object)] with an object that is not
    in the map under another name puts the object in the map under the name
    and in the scene, once; the object the name had before, if it is another
    one, leaves the scene; the other names are as they were; and all named
    objects are still in the scene. *)
Theorem SceneManager_add_registers (key : string) (object : Object3D)
    (this : SceneManager) :
  registered this ->
  (forall key', manager_objects this !! key' = Some object -> key' = key) ->
  let after := SceneManager_add key object this in
  SceneManager_get key after = Some object /\
  object ∈ scene_children after /\
  registered after /\
  match manager_objects this !! key with
  | Some old => old = object \/ old ∉ scene_children after
  | None => True
  end /\
  forall key', key' <> key -> SceneManager_get key' after = SceneManager_get key' this.
Proof.
  intros Hreg Hfree after.
  set (cleared := if bool_decide (is_Some (manager_objects this !! key))
                  then SceneManager_remove key this else this).
  assert (registered cleared) as (Hnodup & Hin & Hinj).
  { unfold cleared. destruct (bool_decide _); [|done].
    by apply SceneManager_remove_registered. }
  assert (forall key', key' <> key ->
            manager_objects cleared !! key' = manager_objects this !! key') as Hother.
  { intros key' Hne. unfold cleared. destruct (bool_decide _); [|done].
    unfold SceneManager_remove.
    destruct (manager_objects this !! key) eqn:Hkey; [|done].
    cbn [manager_objects]. by rewrite lookup_delete_ne. }
  assert (after = {| manager_objects := <[key := object]> (manager_objects cleared);
                     scene_children := scene_add object (scene_children cleared) |})
    as -> by done.
  unfold SceneManager_get. cbn [manager_objects scene_children].
  split; [apply lookup_insert_eq|].
  split; [apply elem_of_scene_add; [done|by left]|].
  split; [|split].
  - split; [by apply NoDup_scene_add|]. cbn [manager_objects scene_children]. split.
    + intros key' object' Hlook. apply elem_of_scene_add; [done|].
      apply lookup_insert_Some in Hlook as [[_ <-]|[_ Hlook]]; [by left|].
      right. by eapply Hin.
    + intros key1 key2 object' H1 H2.
      apply lookup_insert_Some in H1 as [[<- <-]|[Hn1 H1]];
        apply lookup_insert_Some in H2 as [[<- H2]|[Hn2 H2]]; try done.
      * rewrite Hother in H2 by done. symmetry. by apply Hfree.
      * rewrite Hother in H1 by done. subst object'. by apply Hfree.
      * by eapply Hinj.
  - destruct (manager_objects this !! key) as [old|] eqn:Hkey; [|done].
    destruct (decide (old = object)) as [|Hne]; [by left|]. right.
    rewrite elem_of_scene_add by done. intros [?|Hold]; [done|].
    revert Hold. unfold cleared. rewrite bool_decide_eq_true_2 by eauto.
    unfold SceneManager_remove. rewrite Hkey. cbn [scene_children].
    destruct Hreg as (Hnodup0 & _). rewrite elem_of_scene_remove by done. tauto.
  - intros key' Hne. rewrite lookup_insert_ne by done. by apply Hother.
Qed.

Lemma SceneManager_add_registers_witness :
  SceneManager_get "cameraRig"
    (SceneManager_add "cameraRig" 7%nat
       {| manager_objects := ∅; scene_children := [] |}) = Some 7%nat.
Proof.
  refine (proj1 (SceneManager_add_registers "cameraRig" 7%nat
    {| manager_objects := ∅; scene_children := [] |} _ _)).
  - split; [apply NoDup_nil_2|]. cbn [manager_objects scene_children].
    split; [intros key object Hlook|intros key key' object Hlook];
      by rewrite lookup_empty in Hlook.
  - intros key' Hlook. cbn [manager_objects] in Hlook. by rewrite lookup_empty in Hlook.
Defined.

(** ** The analysis step of the application *)

Lemma setVisible_controller (visible : bool) (this : CameraRig) :
  same_controller (setVisible visible this) this.
Proof. by repeat split. Qed.

Lemma setInitialState_cameraArm (toNum : string -> num) (cameraInfo : obj)
    (this : CameraRig) :
  cameraArm_position (objects (setInitialState toNum cameraInfo this)) =
  cameraPosition toNum (setInitialState toNum cameraInfo this).
Proof.
  unfold setInitialState, alloc. cbv zeta. cbn [fst snd].
  rewrite updatePosition_cameraArm. apply cameraPosition_state.
  symmetry. apply same_controller_state, updatePosition_controller.
Qed.

Section AnalysisStep.

Variable toNum : string -> num.
Variable toFixed : num -> nat -> string.
Variable NumberToString : num -> string.
Variable trim : string -> string.
Variable JSON_parse : string -> outcome parsed.
Variable match_data_url : string -> option (string * string).

(** The display of a record goes through when [toFixed] can be called on
    its [distance] and [height], or is not called at all. *)
Lemma displayCameraInfo_shown (o : obj) :
  no_toFixed (get o "distance") = false ->
  no_toFixed (get o "height") = false ->
  exists texts : list string,
    displayCameraInfo toFixed NumberToString (ParsedObject o) = Return texts.
Proof.
  intros Hd Hh. unfold displayCameraInfo, property.
  unfold mbind, outcome_mbind, outcome_bind, optional_toFixed.
  destruct (get o "distance"); try done;
    destruct (get o "height"); try done; eexists; reflexivity.
Qed.

Lemma displayCameraInfo_type_error (o : obj) :
  no_toFixed (get o "distance") || no_toFixed (get o "height") = true ->
  exists e : Error,
    displayCameraInfo toFixed NumberToString (ParsedObject o) = Throw e.
Proof.
  intros Hbad. unfold displayCameraInfo, property.
  unfold mbind, outcome_mbind, outcome_bind, optional_toFixed.
  destruct (get o "distance"); try (eexists; reflexivity);
    destruct (get o "height"); try (eexists; reflexivity); done.
Qed.

(** The controls are filled when the three formatted properties of the
    state are numbers. *)
Lemma updateControlsFromState_numbers (this : App) :
  is_number (get (this_state (app_cameraRig this)) "distance") = true ->
  is_number (get (this_state (app_cameraRig this)) "orbitH") = true ->
  is_number (get (this_state (app_cameraRig this)) "orbitV") = true ->
  exists texts : list string,
    updateControlsFromState toFixed this = Return texts.
Proof.
  intros Hd Hh Hv. unfold updateControlsFromState, getState, get in *.
  rewrite !lookup_insert_ne by done.
  unfold mbind, outcome_mbind, outcome_bind.
  destruct (default VUndefined (this_state (app_cameraRig this) !! "distance"));
    try done.
  destruct (default VUndefined (this_state (app_cameraRig this) !! "orbitH"));
    try done.
  destruct (default VUndefined (this_state (app_cameraRig this) !! "orbitV"));
    try done.
  eexists; reflexivity.
Qed.

Lemma updateControlsFromState_type_error (this : App) :
  is_number (get (this_state (app_cameraRig this)) "orbitH") &&
  is_number (get (this_state (app_cameraRig this)) "orbitV") = false ->
  exists e : Error, updateControlsFromState toFixed this = Throw e.
Proof.
  intros Hbad. unfold updateControlsFromState, getState, get in *.
  rewrite !lookup_insert_ne by done.
  unfold mbind, outcome_mbind, outcome_bind.
  destruct (default VUndefined (this_state (app_cameraRig this) !! "distance"));
    try (eexists; reflexivity).
  destruct (default VUndefined (this_state (app_cameraRig this) !! "orbitH"));
    try (eexists; reflexivity).
  destruct (default VUndefined (this_state (app_cameraRig this) !! "orbitV"));
    try (eexists; reflexivity).
  done.
Qed.

(** The state of the rig the step builds. *)
Lemma analysed_rig_state (visible : bool) (cameraInfo : obj) (this : CameraRig) :
  this_state (setVisible visible (setInitialState toNum cameraInfo this)) =
    {[ "distance" := js_or (get cameraInfo "distance") (VNum (Fin 3));
       "orbitH" := js_or (get cameraInfo "yaw") (VNum (Fin 0));
       "orbitV" := js_or (get cameraInfo "pitch") (VNum (Fin 0));
       "pan" := VNum (Fin 0);
       "tilt" := VNum (Fin 0) ]}.
Proof.
  rewrite (same_controller_state _ _ (setVisible_controller _ _)).
  apply setInitialState_this_state.
Qed.

End AnalysisStep.

(** X27.  When the call to the service fails with a message without
    "API key" (or without a message), the analysis step of the application
    still initialises the rig, from the default record: the state is
    distance 3 with no orbit, pan or tilt, the tags are "medium shot" and
    "eye level", the camera is at (0, 0, 3), the rig is shown, the image
    counts as analysed and the button that generates the prompts is
    enabled. *)
Theorem failed_call_gives_default_rig (toNum : string -> num)
    (toFixed : num -> nat -> string) (NumberToString : num -> string)
    (trim : string -> string) (JSON_parse : string -> outcome parsed)
    (match_data_url : string -> option (string * string))
    (apiKey : outcome jsval)
    (generateContent : string -> string -> outcome (option string))
    (imageData mimeType base64Data : string) (e : Error) (this : App) :
  getAIClient apiKey = Return tt ->
  match_data_url imageData = Some (mimeType, base64Data) ->
  generateContent mimeType base64Data = Throw e ->
  match message e with
  | VStr m => includes "API key" m = false
  | VUndefined | VNull => True
  | VBool _ | VNum _ => False
  end ->
  let after :=
    analyzeImageWithAI toNum toFixed NumberToString trim JSON_parse match_data_url
      apiKey generateContent imageData this in
  let rig := app_cameraRig after in
  app_isAnalyzed after = true /\
  generate_btn_disabled after = false /\
  group_visible (objects rig) = true /\
  this_state rig =
    {[ "distance" := VNum (Fin 3); "orbitH" := VNum (Fin 0);
       "orbitV" := VNum (Fin 0); "pan" := VNum (Fin 0); "tilt" := VNum (Fin 0) ]} /\
  originalShotType rig = VStr "medium shot" /\
  originalAngle rig = VStr "eye level" /\
  cameraArm_position (objects rig) = THREE.Vec3 (Fin 0) (Fin 0) (Fin 3).
Proof.
  intros Hclient Hmatch Hcall Hmsg after rig.
  assert (analyzeImage trim JSON_parse match_data_url apiKey generateContent imageData =
          Return (ParsedObject default_analysis)) as Hanalysis.
  { unfold analyzeImage, analyze_attempt.
    rewrite Hclient, Hmatch, Hcall. unfold message_includes.
    destruct (message e) as [| | | |m]; try done. by rewrite Hmsg. }
  assert (get default_analysis "distance" = VNum (Fin 3)) as Hd by reflexivity.
  assert (get default_analysis "yaw" = VNum (Fin 0)) as Hy by reflexivity.
  assert (get default_analysis "pitch" = VNum (Fin 0)) as Hp by reflexivity.
  assert (get default_analysis "height" = VNum (Fin (16 / 10))) as Hh by reflexivity.
  assert (get default_analysis "shotType" = VStr "medium shot") as Hs by reflexivity.
  assert (get default_analysis "angle" = VStr "eye level") as Ha by reflexivity.
  destruct (displayCameraInfo_shown toFixed NumberToString default_analysis)
    as [texts Hshown]; [by rewrite Hd|by rewrite Hh|].
  set (built := setVisible true
                  (setInitialState toNum default_analysis (app_cameraRig this))).
  assert (this_state built =
    {[ "distance" := VNum (Fin 3); "orbitH" := VNum (Fin 0);
       "orbitV" := VNum (Fin 0); "pan" := VNum (Fin 0); "tilt" := VNum (Fin 0) ]})
    as Hstate.
  { unfold built. rewrite analysed_rig_state, Hd, Hy, Hp.
    rewrite (js_or_truthy (VNum (Fin 3))) by (apply truthy_nonzero; lra).
    by rewrite (js_or_falsy (VNum (Fin 0))) by apply truthy_zero. }
  destruct (updateControlsFromState_numbers toFixed
              {| app_cameraRig := built; app_isAnalyzed := true;
                 generate_btn_disabled := generate_btn_disabled this |})
    as [controls Hcontrols];
    [cbn [app_cameraRig]; by rewrite Hstate..|].
  assert (after = {| app_cameraRig := built; app_isAnalyzed := true;
                     generate_btn_disabled := false |}) as Hafter.
  { subst after. unfold analyzeImageWithAI. rewrite Hanalysis, Hshown.
    cbn [properties]. fold built. by rewrite Hcontrols. }
  subst rig. rewrite Hafter. cbn [app_cameraRig app_isAnalyzed generate_btn_disabled].
  split; [done|]. split; [done|]. split; [done|]. split; [done|].
  destruct (setInitialState_objects toNum default_analysis (app_cameraRig this))
    as (_ & _ & _ & Hshot & Hangle).
  split; [by rewrite <- Hs|]. split; [by rewrite <- Ha|].
  unfold built, setVisible. cbn [objects with_objects cameraArm_position].
  rewrite setInitialState_cameraArm.
  assert (this_state (setInitialState toNum default_analysis (app_cameraRig this)) =
          this_state built) as Hsame.
  { unfold built. symmetry. apply same_controller_state, setVisible_controller. }
  rewrite (cameraPosition_Fin toNum _ 3 0 0);
    [|by rewrite Hsame, Hstate..].
  rewrite !Rmult_0_l, cos_0, sin_0. f_equal; f_equal; lra.
Qed.

Lemma failed_call_gives_default_rig_witness :
  app_isAnalyzed
    (analyzeImageWithAI (fun _ => NaN) (fun _ _ => "3.0"%string) (fun _ => "3"%string)
       (fun s => s) (fun _ => Return (ParsedOther VNull))
       (fun _ => Some ("image/png"%string, "AAAA"%string)) (Return (VStr "key"))
       (fun _ _ => Throw {| message := VStr "Failed to fetch" |})
       "data:image/png;base64,AAAA"
       {| app_cameraRig := constructor; app_isAnalyzed := false;
          generate_btn_disabled := true |}) = true.
Proof.
  assert (includes "API key" "Failed to fetch" = false) as Hmsg by reflexivity.
  exact (proj1 (failed_call_gives_default_rig (fun _ => NaN) (fun _ _ => "3.0"%string)
    (fun _ => "3"%string) (fun s => s) (fun _ => Return (ParsedOther VNull))
    (fun _ => Some ("image/png"%string, "AAAA"%string)) (Return (VStr "key"))
    (fun _ _ => Throw {| message := VStr "Failed to fetch" |})
    "data:image/png;base64,AAAA" "image/png" "AAAA"
    {| message := VStr "Failed to fetch" |}
    {| app_cameraRig := constructor; app_isAnalyzed := false;
       generate_btn_disabled := true |}
    eq_refl eq_refl eq_refl Hmsg)).
Defined.

(** X28.  When the record the analysis returns has a string or a boolean
    as its [distance] or its [height] (a quoted number, say), the step
    fails while showing the record and changes nothing: the rig is not
    initialised and the image does not count as analysed. *)
Theorem quoted_distance_stops_analysis (toNum : string -> num)
    (toFixed : num -> nat -> string) (NumberToString : num -> string)
    (trim : string -> string) (JSON_parse : string -> outcome parsed)
    (match_data_url : string -> option (string * string))
    (apiKey : outcome jsval)
    (generateContent : string -> string -> outcome (option string))
    (imageData : string) (cameraInfo : obj) (this : App) :
  analyzeImage trim JSON_parse match_data_url apiKey generateContent imageData =
    Return (ParsedObject cameraInfo) ->
  no_toFixed (get cameraInfo "distance") || no_toFixed (get cameraInfo "height") = true ->
  analyzeImageWithAI toNum toFixed NumberToString trim JSON_parse match_data_url
    apiKey generateContent imageData this = this.
Proof.
  intros Hanalysis Hbad. unfold analyzeImageWithAI. rewrite Hanalysis.
  destruct (displayCameraInfo_type_error toFixed NumberToString cameraInfo Hbad)
    as [e He].
  by rewrite He.
Qed.

Lemma quoted_distance_stops_analysis_witness :
  analyzeImageWithAI (fun _ => NaN) (fun _ _ => "3.0"%string) (fun _ => "3"%string)
    (fun s => s) (fun _ => Return (ParsedObject {[ "distance" := VStr "3" ]}))
    (fun _ => Some ("image/png"%string, "AAAA"%string)) (Return (VStr "key"))
    (fun _ _ => Return (Some "{}"%string))
    "data:image/png;base64,AAAA"
    {| app_cameraRig := constructor; app_isAnalyzed := false;
       generate_btn_disabled := true |} =
  {| app_cameraRig := constructor; app_isAnalyzed := false;
     generate_btn_disabled := true |}.
Proof.
  assert (no_toFixed (get ({[ "distance" := VStr "3" ]} : obj) "distance") ||
          no_toFixed (get ({[ "distance" := VStr "3" ]} : obj) "height") = true)
    as Hbad by reflexivity.
  exact (quoted_distance_stops_analysis (fun _ => NaN) (fun _ _ => "3.0"%string)
    (fun _ => "3"%string) (fun s => s)
    (fun _ => Return (ParsedObject {[ "distance" := VStr "3" ]}))
    (fun _ => Some ("image/png"%string, "AAAA"%string)) (Return (VStr "key"))
    (fun _ _ => Return (Some "{}"%string))
    "data:image/png;base64,AAAA" {[ "distance" := VStr "3" ]}
    {| app_cameraRig := constructor; app_isAnalyzed := false;
       generate_btn_disabled := true |}
    eq_refl Hbad).
Defined.

(** X29.  When the record shows ([distance] and [height] are numbers or
    missing) but its [yaw] or [pitch] is a non-empty string or [true], the
    step initialises and shows the rig and counts the image as analysed,
    then fails while filling the controls, so the button that generates the
    prompts is left as it was; and a position prompt requested for that rig
    with a configured key throws before the service is reached. *)
Theorem quoted_yaw_leaves_controls (toNum : string -> num)
    (toFixed : num -> nat -> string) (NumberToString : num -> string)
    (trim : string -> string) (JSON_parse : string -> outcome parsed)
    (match_data_url : string -> option (string * string))
    (apiKey : outcome jsval)
    (generateContent : string -> string -> outcome (option string))
    (imageData : string) (cameraInfo : obj) (this : App) (key : jsval) :
  analyzeImage trim JSON_parse match_data_url apiKey generateContent imageData =
    Return (ParsedObject cameraInfo) ->
  no_toFixed (get cameraInfo "distance") = false ->
  no_toFixed (get cameraInfo "height") = false ->
  (truthy (get cameraInfo "yaw") && no_toFixed (get cameraInfo "yaw")) ||
  (truthy (get cameraInfo "pitch") && no_toFixed (get cameraInfo "pitch")) = true ->
  truthy key = true ->
  let after :=
    analyzeImageWithAI toNum toFixed NumberToString trim JSON_parse match_data_url
      apiKey generateContent imageData this in
  app_cameraRig after =
    setVisible true (setInitialState toNum cameraInfo (app_cameraRig this)) /\
  app_isAnalyzed after = true /\
  generate_btn_disabled after = generate_btn_disabled this /\
  exists e : Error,
    forall service : string -> outcome (option string),
      generatePositionPrompt toFixed NumberToString (Return key) service
        (getState (app_cameraRig after)) = Throw e.
Proof.
  intros Hanalysis Hd Hh Hbad Hkey after.
  destruct (displayCameraInfo_shown toFixed NumberToString cameraInfo Hd Hh)
    as [texts Hshown].
  set (built := setVisible true
                  (setInitialState toNum cameraInfo (app_cameraRig this))).
  assert (is_number (get (this_state built) "orbitH") &&
          is_number (get (this_state built) "orbitV") = false) as Hstate.
  { unfold built. rewrite analysed_rig_state.
    set (yaw := get cameraInfo "yaw") in *.
    set (pitch := get cameraInfo "pitch") in *.
    assert (get ({[ "distance" := js_or (get cameraInfo "distance") (VNum (Fin 3));
                    "orbitH" := js_or yaw (VNum (Fin 0));
                    "orbitV" := js_or pitch (VNum (Fin 0));
                    "pan" := VNum (Fin 0); "tilt" := VNum (Fin 0) ]} : obj) "orbitH" =
            js_or yaw (VNum (Fin 0))) as -> by reflexivity.
    assert (get ({[ "distance" := js_or (get cameraInfo "distance") (VNum (Fin 3));
                    "orbitH" := js_or yaw (VNum (Fin 0));
                    "orbitV" := js_or pitch (VNum (Fin 0));
                    "pan" := VNum (Fin 0); "tilt" := VNum (Fin 0) ]} : obj) "orbitV" =
            js_or pitch (VNum (Fin 0))) as -> by reflexivity.
    unfold js_or.
    apply orb_true_iff in Hbad as [Hbad|Hbad];
      apply andb_true_iff in Hbad as [Htruthy Hno]; rewrite Htruthy.
    - destruct yaw; try done.
    - destruct pitch; try done; apply andb_false_r. }
  destruct (updateControlsFromState_type_error toFixed
              {| app_cameraRig := built; app_isAnalyzed := true;
                 generate_btn_disabled := generate_btn_disabled this |} Hstate)
    as [e He].
  assert (after = {| app_cameraRig := built; app_isAnalyzed := true;
                     generate_btn_disabled := generate_btn_disabled this |}) as ->.
  { subst after. unfold analyzeImageWithAI. rewrite Hanalysis, Hshown.
    cbn [properties]. fold built. by rewrite He. }
  cbn [app_cameraRig app_isAnalyzed generate_btn_disabled].
  split; [done|]. split; [done|]. split; [done|].
  apply positionPrompt_type_error; [done|].
  rewrite (proj1 (numeric_state_getState built)).
  unfold numeric_state, state_keys. cbn [forallb].
  destruct (is_number (get (this_state built) "distance")); [|done].
  destruct (is_number (get (this_state built) "orbitH")); [|done].
  destruct (is_number (get (this_state built) "orbitV")); done.
Qed.

Lemma quoted_yaw_leaves_controls_witness :
  app_isAnalyzed
    (analyzeImageWithAI (fun _ => NaN) (fun _ _ => "3.0"%string) (fun _ => "3"%string)
       (fun s => s) (fun _ => Return (ParsedObject {[ "yaw" := VStr "30" ]}))
       (fun _ => Some ("image/png"%string, "AAAA"%string)) (Return (VStr "key"))
       (fun _ _ => Return (Some "{}"%string))
       "data:image/png;base64,AAAA"
       {| app_cameraRig := constructor; app_isAnalyzed := false;
          generate_btn_disabled := true |}) = true.
Proof.
  assert (no_toFixed (get ({[ "yaw" := VStr "30" ]} : obj) "distance") = false)
    as Hd by reflexivity.
  assert (no_toFixed (get ({[ "yaw" := VStr "30" ]} : obj) "height") = false)
    as Hh by reflexivity.
  assert ((truthy (get ({[ "yaw" := VStr "30" ]} : obj) "yaw") &&
           no_toFixed (get ({[ "yaw" := VStr "30" ]} : obj) "yaw")) ||
          (truthy (get ({[ "yaw" := VStr "30" ]} : obj) "pitch") &&
           no_toFixed (get ({[ "yaw" := VStr "30" ]} : obj) "pitch")) = true)
    as Hbad by reflexivity.
  assert (truthy (VStr "key") = true) as Hkey by reflexivity.
  exact (proj1 (proj2 (quoted_yaw_leaves_controls (fun _ => NaN)
    (fun _ _ => "3.0"%string) (fun _ => "3"%string) (fun s => s)
    (fun _ => Return (ParsedObject {[ "yaw" := VStr "30" ]}))
    (fun _ => Some ("image/png"%string, "AAAA"%string)) (Return (VStr "key"))
    (fun _ _ => Return (Some "{}"%string))
    "data:image/png;base64,AAAA" {[ "yaw" := VStr "30" ]}
    {| app_cameraRig := constructor; app_isAnalyzed := false;
       generate_btn_disabled := true |} (VStr "key")
    eq_refl Hd Hh Hbad Hkey))).
Defined.
